(** * Schema-aware DDL generation of django.db.backends: creation.py

    A shallow embedding of [BaseDatabaseCreation] (django/db/backends/creation.py)
    and of its MySQL and Oracle subclasses, with the properties of the
    qualified-name / pending-reference / two-phase cross-schema machinery.

    Conventions.
    - A method of the base class keeps its Python name; the override of a
      subclass is prefixed [mysql_] or [oracle_]; where a method is overridden,
      the base body is prefixed [base_] and the unprefixed name is the
      dispatch [self.method(...)] on the class of [self].
    - A Python exception is a [Raise]; code that mutates a dictionary or the
      connection is written in a state-and-exception monad, so a raise keeps
      the state reached so far.
    - What the module imports but the repository sources do not define
      (the builtin [hash], [django.db.backends.util.truncate_name], the
      connection's [ops], [qualified_name], [convert_schema]) is taken as a
      parameter. *)

From Stdlib Require Import ZArith Ascii String.
From Stdlib Require Import HexadecimalString HexadecimalPos HexadecimalN.
From stdpp Require Import gmap strings list.

Open Scope string_scope.
Open Scope list_scope.

(** ** Exceptions *)

Inductive exn :=
| AttributeError (attr : string)
| KeyError (key : string)
| FieldDoesNotExist (fname : string)
| TypeError
| DatabaseError (stmt : string)
| InterfaceError
| NotImplementedError.

Inductive result (A : Type) :=
| Ok (a : A)
| Raise (e : exn).
Arguments Ok {A} a.
Arguments Raise {A} e.

#[global] Instance result_ret : MRet result := @Ok.
#[global] Instance result_bind : MBind result := λ A B f r,
  match r with Ok a => f a | Raise e => Raise e end.

(** [for x in l: acc = body(acc, x)], stopping at the first raise. *)
Fixpoint foldM {A B : Type} (body : A → B → result A) (acc : A) (l : list B)
  : result A :=
  match l with
  | [] => Ok acc
  | x :: l' => acc' ← body acc x; foldM body acc' l'
  end.

(** A list comprehension whose element expression may raise. *)
Fixpoint mapM {A B : Type} (f : A → result B) (l : list A) : result (list B) :=
  match l with
  | [] => Ok []
  | x :: l' => y ← f x; ys ← mapM f l'; Ok (y :: ys)
  end.

(** State and exceptions: the state survives a raise, as a mutated Python
    object does. *)
Definition M (S A : Type) : Type := S → result A * S.

#[global] Instance M_ret {S} : MRet (M S) := λ A a s, (Ok a, s).
#[global] Instance M_bind {S} : MBind (M S) := λ A B f m s,
  match m s with
  | (Ok a, s') => f a s'
  | (Raise e, s') => (Raise e, s')
  end.

Definition get {S} : M S S := λ s, (Ok s, s).
Definition put {S} (s : S) : M S unit := λ _, (Ok tt, s).
Definition modify {S} (f : S → S) : M S unit := λ s, (Ok tt, f s).
Definition raise {S A} (e : exn) : M S A := λ s, (Raise e, s).
Definition lift {S A} (r : result A) : M S A := λ s, (r, s).

(** [try: body finally: fin]. The [finally] block runs on both exits; the
    exception of the body is re-raised after it unless the block itself
    raises. *)
Definition try_finally {S A} (body : M S A) (fin : M S unit) : M S A := λ s,
  match body s with
  | (r, s1) =>
      match fin s1 with
      | (Ok _, s2) => (r, s2)
      | (Raise e, s2) => (Raise e, s2)
      end
  end.

(** [for x in l: body(x)] in the state monad. *)
Fixpoint forM_ {S B} (body : B → M S unit) (l : list B) : M S unit :=
  match l with
  | [] => mret tt
  | x :: l' => _ ← body x; forM_ body l'
  end.

(** [for x in l: acc = body(acc, x)] in the state monad. *)
Fixpoint foldS {S A B} (body : A → B → M S A) (acc : A) (l : list B) : M S A :=
  match l with
  | [] => mret acc
  | x :: l' => acc' ← body acc x; foldS body acc' l'
  end.

(** A computation on a local object: its result, the object dropped. *)
Definition eval {S A} (m : M S A) (s : S) : result A := (m s).1.

(** ** Python values *)

(** Truthiness of a value that is [None] or a string. *)
Definition truthy (o : option string) : bool :=
  match o with
  | Some s => negb (String.eqb s EmptyString)
  | None => false
  end.

(** [a or b] on such values. *)
Definition py_or (a b : option string) : option string :=
  if truthy a then a else b.

Definition nl : string := String "010"%char EmptyString.

(** ['%x' % n] for a non-negative [n]. *)
Definition hex (n : Z) : string :=
  NilZero.string_of_uint (N.to_hex_uint (Z.to_N n)).

(** ** django.db.QName

    A namedtuple [(schema, table, db_format)]; the [model] attribute set by
    [__new__] is kept as the identity of the originating class. *)
Record QName := mkQName {
  schema : option string;
  table : option string;
  db_format : bool;
  qname_model : option string
}.

(** ** Model metadata

    [Options] is what [model._meta] carries apart from the fields; the
    identity of the class object is [class_id]. A field's back-reference
    [field.model] is kept as the owner's [Options]. *)
Record Options := mkOptions {
  class_id : string;
  db_table : string;
  db_schema : option string;
  managed : bool;
  proxy : bool;
  db_tablespace : option string;
  unique_together : list (list string);
  has_auto_field : bool
}.

Inductive Model := mkModel {
  _meta : Options;
  fields : list Field;
  local_fields : list Field;
  auto_field : option Field }
with Field := mkField {
  name : string;
  column : string;
  db_column : option string;
  field_db_tablespace : option string;
  null : bool;
  empty_strings_allowed : bool;
  primary_key : bool;
  unique : bool;
  db_index : bool;
  rel : option Rel;
  model : Options }
with Rel := mkRel {
  to : Model;
  field_name : string }.

(** [opts.get_field(name)]: search by name, [FieldDoesNotExist] otherwise. *)
Definition get_field (m : Model) (n : string) : result Field :=
  match List.find (λ f, String.eqb (name f) n) (fields m) with
  | Some f => Ok f
  | None => Raise (FieldDoesNotExist n)
  end.

(** ** Terminal styles (django.core.management.color) *)
Record Style := mkStyle {
  SQL_KEYWORD : string → string;
  SQL_FIELD : string → string;
  SQL_COLTYPE : string → string;
  SQL_TABLE : string → string
}.

Definition no_style : Style := mkStyle id id id id.

(** ** The connection, as far as creation.py uses it *)
Record DatabaseOperations := mkOps {
  quote_name : string → string;
  compose_qualified_name : QName → string;
  max_name_length : option nat;
  deferrable_sql : string;
  drop_foreignkey_sql : string;
  tablespace_sql : string → bool → string;
  autoinc_sql : QName → string → option (list string);
  drop_sequence_sql : string → option string
}.

Record DatabaseFeatures := mkFeatures {
  interprets_empty_strings_as_nulls : bool
}.

Abbreviation Settings := (gmap string string).

Record DatabaseWrapper := mkWrapper {
  ops : DatabaseOperations;
  features : DatabaseFeatures;
  qualified_name : Options → QName;
  convert_schema : option string → option string;
  connection_schema : option string;
  db_type : Field → option string
}.

Inductive Vendor := Base | MySQL | Oracle | PostgreSQL.

#[global] Instance Vendor_eq_dec : EqDecision Vendor.
Proof. solve_decision. Defined.

(** The creation object: its class and its [connection] attribute. *)
Record DatabaseCreation := mkCreation {
  vendor : Vendor;
  connection : DatabaseWrapper
}.

(** One interpreter run: its builtin [hash] on a tuple of strings, whose
    values belong to the run (seeded per process under hash randomization,
    sized by the word of the build), and
    [django.db.backends.util.truncate_name]. *)
Record Runtime := mkRuntime {
  hash : list string → Z;
  truncate_name : string → option nat → string
}.

(** ** Dictionaries keyed by model classes

    Keys hash by identity; the stored pair keeps the key object. *)
Abbreviation ModelDict V := (gmap string (Model * V)).
Abbreviation Ref := (Model * Field)%type.
Abbreviation PendingReferences := (gmap string (Model * list (Model * Field))).

Definition contains {V} (d : ModelDict V) (m : Model) : bool :=
  bool_decide (is_Some (d !! class_id (_meta m))).

Definition getitem {V} (d : ModelDict V) (m : Model) : result V :=
  match d !! class_id (_meta m) with
  | Some (_, v) => Ok v
  | None => Raise (KeyError (class_id (_meta m)))
  end.

Definition setitem {V} (d : ModelDict V) (m : Model) (v : V) : ModelDict V :=
  match d !! class_id (_meta m) with
  | Some (k, _) => <[class_id (_meta m) := (k, v)]> d
  | None => <[class_id (_meta m) := (m, v)]> d
  end.

Definition delitem {V} (d : ModelDict V) (m : Model) : result (ModelDict V) :=
  match d !! class_id (_meta m) with
  | Some _ => Ok (delete (class_id (_meta m)) d)
  | None => Raise (KeyError (class_id (_meta m)))
  end.

(** [d.setdefault(m, []).append(x)] *)
Definition setdefault_append {A} (d : ModelDict (list A)) (m : Model) (x : A)
  : ModelDict (list A) :=
  match d !! class_id (_meta m) with
  | Some (k, l) => <[class_id (_meta m) := (k, l ++ [x])]> d
  | None => <[class_id (_meta m) := (m, [x])]> d
  end.

(** [d.items()] *)
Definition items {V} (d : ModelDict V) : list (Model * V) :=
  (map_to_list d).*2.

(** [m in known_models] *)
Definition known (known_models : gset string) (m : Model) : bool :=
  bool_decide (class_id (_meta m) ∈ known_models).

(** [field.rel.<attr>]: [rel] is [None] on a field that is no relation. *)
Definition rel_attr (f : Field) (attr : string) : result Rel :=
  match rel f with
  | Some r => Ok r
  | None => Raise (AttributeError attr)
  end.

(** [settings_dict[key]] *)
Definition setting (settings_dict : Settings) (key : string) : result string :=
  match settings_dict !! key with
  | Some v => Ok v
  | None => Raise (KeyError key)
  end.

(** * django/db/backends/creation.py and the MySQL overrides

    Every function that reads [self.connection.settings_dict], or may
    dispatch to one that does, takes the dictionary's current contents. *)
Section Creation.

Context (rt : Runtime).

Definition _digest (args : list string) : string :=
  hex (Z.abs (hash rt args) `mod` 4294967296).

(** mysql/introspection.py *)
Definition mysql_qname_converter (conn : DatabaseWrapper)
    (settings_dict : Settings) (qname : QName) (force_schema : bool)
  : result QName :=
  if db_format qname && (truthy (schema qname) || negb force_schema) then
    Ok qname
  else
    let schema0 := convert_schema conn (schema qname) in
    schema1 ← (if negb (truthy schema0) && force_schema
               then v ← setting settings_dict "NAME"; Ok (Some v)
               else Ok schema0);
    Ok (mkQName schema1 (table qname) true (qname_model qname)).

Definition base_qualified_name_for_ref (self : DatabaseCreation)
    (from_table ref_table : QName) : string :=
  compose_qualified_name (ops (connection self)) ref_table.

Definition mysql_qualified_name_for_ref (self : DatabaseCreation)
    (settings_dict : Settings) (from_table ref_table : QName) : result string :=
  from_qn ← mysql_qname_converter (connection self) settings_dict from_table false;
  to_qn ← mysql_qname_converter (connection self) settings_dict ref_table false;
  to_qn ← (match schema to_qn with
           | None =>
               n ← setting settings_dict "NAME";
               Ok (mkQName (Some n) (table to_qn) (db_format to_qn) None)
           | Some _ => Ok to_qn
           end);
  Ok (base_qualified_name_for_ref self from_qn to_qn).

(** [self.qualified_name_for_ref(from_table, ref_table)] *)
Definition qualified_name_for_ref (self : DatabaseCreation)
    (settings_dict : Settings) (from_table ref_table : QName) : result string :=
  match vendor self with
  | MySQL => mysql_qualified_name_for_ref self settings_dict from_table ref_table
  | _ => Ok (base_qualified_name_for_ref self from_table ref_table)
  end.

Definition base_sql_for_inline_foreign_key_references (self : DatabaseCreation)
    (settings_dict : Settings) (field : Field) (known_models : gset string)
    (style : Style) : result (list string * bool) :=
  let qn := quote_name (ops (connection self)) in
  let from_qname := qualified_name (connection self) (model field) in
  r ← rel_attr field "to";
  let to_qname := qualified_name (connection self) (_meta (to r)) in
  qname ← qualified_name_for_ref self settings_dict from_qname to_qname;
  if known known_models (to r) then
    target ← get_field (to r) (field_name r);
    Ok ([SQL_KEYWORD style "REFERENCES" +:+ " " +:+
         SQL_TABLE style qname +:+ " (" +:+
         SQL_FIELD style (qn (column target)) +:+ ")" +:+
         deferrable_sql (ops (connection self))], false)
  else
    (* We haven't yet created the table to which this field is related,
       so save it for later. *)
    Ok ([], true).

(** All inline references are pending under MySQL *)
Definition mysql_sql_for_inline_foreign_key_references (self : DatabaseCreation)
    (field : Field) (known_models : gset string) (style : Style)
  : list string * bool :=
  ([], true).

(** oracle/introspection.py *)
Definition oracle_qname_converter (conn : DatabaseWrapper)
    (settings_dict : Settings) (qname : QName) (force_schema : bool)
  : result QName :=
  if db_format qname && (truthy (schema qname) || negb force_schema) then
    Ok qname
  else
    let schema0 := convert_schema conn (schema qname) in
    schema1 ← (if negb (truthy schema0) && force_schema
               then v ← setting settings_dict "USER"; Ok (Some v)
               else Ok schema0);
    Ok (mkQName schema1 (table qname) true (qname_model qname)).

(** oracle/creation.py *)
Definition needs_separate_conn (self : DatabaseCreation)
    (settings_dict : Settings) (from_qname to_qname : QName) : result bool :=
  let conv := oracle_qname_converter (connection self) settings_dict in
  def ← conv (mkQName None None false None) true;
  let def_schema := schema def in
  from_qname ← conv from_qname true;
  to_qname ← conv to_qname true;
  Ok (bool_decide (def_schema ≠ schema from_qname)
      || bool_decide (schema to_qname ≠ schema from_qname)).

(** Oracle doesn't let you do cross-schema foreign keys, except if you
    are connected to the "from" schema. *)
Definition oracle_sql_for_inline_foreign_key_references
    (self : DatabaseCreation) (settings_dict : Settings) (field : Field)
    (known_models : gset string) (style : Style) : result (list string * bool) :=
  let from_qname := qualified_name (connection self) (model field) in
  r ← rel_attr field "to";
  sep ← needs_separate_conn self settings_dict from_qname
          (qualified_name (connection self) (_meta (to r)));
  if sep : bool then Ok ([], true)
  else base_sql_for_inline_foreign_key_references self settings_dict field
         known_models style.

(** [self.sql_for_inline_foreign_key_references(field, known_models, style)] *)
Definition sql_for_inline_foreign_key_references (self : DatabaseCreation)
    (settings_dict : Settings) (field : Field) (known_models : gset string)
    (style : Style) : result (list string * bool) :=
  match vendor self with
  | MySQL =>
      Ok (mysql_sql_for_inline_foreign_key_references self field known_models style)
  | Oracle =>
      oracle_sql_for_inline_foreign_key_references self settings_dict field
        known_models style
  | _ =>
      base_sql_for_inline_foreign_key_references self settings_dict field
        known_models style
  end.

(** Body of [for f in opts.local_fields] in [sql_create_model]; the
    accumulator is [(table_output, pending_references)]. *)
Definition sql_create_model_field (self : DatabaseCreation)
    (settings_dict : Settings) (m : Model) (style : Style)
    (known_models : gset string)
    (acc : list string * PendingReferences) (f : Field)
  : result (list string * PendingReferences) :=
  let '(table_output, pending_references) := acc in
  let qn := quote_name (ops (connection self)) in
  let opts := _meta m in
  let col_type := db_type (connection self) f in
  let tablespace := py_or (field_db_tablespace f) (db_tablespace opts) in
  match col_type with
  | None =>
      (* Skip ManyToManyFields, because they're not represented as
         database columns in this table. *)
      Ok acc
  | Some col_type =>
      let field_output := [SQL_FIELD style (qn (column f));
                           SQL_COLTYPE style col_type] in
      let null0 :=
        if empty_strings_allowed f && negb (primary_key f) &&
           interprets_empty_strings_as_nulls (features (connection self))
        then true else null f in
      let field_output :=
        if negb null0 then field_output ++ [SQL_KEYWORD style "NOT NULL"]
        else field_output in
      let field_output :=
        if primary_key f then field_output ++ [SQL_KEYWORD style "PRIMARY KEY"]
        else if unique f then field_output ++ [SQL_KEYWORD style "UNIQUE"]
        else field_output in
      let field_output :=
        if truthy tablespace && unique f then
          let ts := tablespace_sql (ops (connection self))
                      (default EmptyString tablespace) true in
          if truthy (Some ts) then field_output ++ [ts] else field_output
        else field_output in
      '(field_output, pending_references) ←
        match rel f with
        | Some r =>
            '(ref_output, pending) ←
              sql_for_inline_foreign_key_references self settings_dict f
                known_models style;
            if pending : bool then
              Ok (field_output, setdefault_append pending_references (to r) (m, f))
            else
              Ok (field_output ++ ref_output, pending_references)
        | None => Ok (field_output, pending_references)
        end;
      Ok (table_output ++ [String.concat " " field_output], pending_references)
  end.

(** [enumerate(table_output)]: combine and add commas. *)
Fixpoint comma_lines (table_output : list string) : list string :=
  match table_output with
  | [] => []
  | [line] => ["    " +:+ line +:+ EmptyString]
  | line :: rest => ("    " +:+ line +:+ ",") :: comma_lines rest
  end.

Definition sql_create_model (self : DatabaseCreation) (settings_dict : Settings)
    (m : Model) (style : Style) (known_models : gset string)
  : result (list string * PendingReferences) :=
  let opts := _meta m in
  if negb (managed opts) || proxy opts then Ok ([], ∅)
  else
    let qn := quote_name (ops (connection self)) in
    let cqn := compose_qualified_name (ops (connection self)) in
    let qname := qualified_name (connection self) opts in
    '(table_output, pending_references) ←
      foldM (sql_create_model_field self settings_dict m style known_models)
        ([], ∅) (local_fields m);
    uniques ←
      mapM (λ field_constraints,
              cols ← mapM (λ f, fld ← get_field m f;
                                Ok (SQL_FIELD style (qn (column fld))))
                          field_constraints;
              Ok (SQL_KEYWORD style "UNIQUE" +:+ " (" +:+
                  String.concat ", " cols +:+ ")"))
           (unique_together opts);
    let table_output := table_output ++ uniques in
    let full_statement :=
      [SQL_KEYWORD style "CREATE TABLE" +:+ " " +:+
       SQL_TABLE style (cqn qname) +:+ " ("]
      ++ comma_lines table_output ++ [")"] in
    let full_statement :=
      if truthy (db_tablespace opts) then
        let ts := tablespace_sql (ops (connection self))
                    (default EmptyString (db_tablespace opts)) false in
        if truthy (Some ts) then full_statement ++ [ts] else full_statement
      else full_statement in
    let full_statement := full_statement ++ [";"] in
    let final_output := [String.concat nl full_statement] in
    final_output ←
      (if has_auto_field opts then
         (* Add any extra SQL needed to support auto-incrementing primary
            keys. *)
         match auto_field m with
         | None => Raise (AttributeError "db_column")
         | Some af =>
             let auto_column := default EmptyString (py_or (db_column af) (Some (name af))) in
             match autoinc_sql (ops (connection self)) qname auto_column with
             | Some stmts => Ok (final_output ++ stmts)
             | None => Ok final_output
             end
         end
       else Ok final_output);
    Ok (final_output, pending_references).

(** Body of [for rel_class, f in pending_references[model]] in
    [sql_for_pending_references]; [out] is [final_output]. *)
Definition pending_reference_sql (self : DatabaseCreation)
    (settings_dict : Settings) (m : Model) (style : Style)
    (out : list string) (ref : Ref) : result (list string) :=
  let '(rel_class, f) := ref in
  let qn := quote_name (ops (connection self)) in
  let cqn := compose_qualified_name (ops (connection self)) in
  let qname := qualified_name (connection self) (_meta m) in
  let table := db_table (_meta m) in
  let r_col := column f in
  let r_table := db_table (_meta rel_class) in
  let r_qname := qualified_name (connection self) (_meta rel_class) in
  r_qname ← qualified_name_for_ref self settings_dict qname r_qname;
  r ← rel_attr f "field_name";
  target ← get_field m (field_name r);
  let col := column target in
  (* For MySQL, r_name must be unique in the first 64 characters.
     So we are careful with character usage here. *)
  let r_name := r_col +:+ "_refs_" +:+ col +:+ "_" +:+ _digest [r_table; table] in
  Ok (out ++
      [SQL_KEYWORD style "ALTER TABLE" +:+ " " +:+ r_qname +:+
       " ADD CONSTRAINT " +:+
       qn (truncate_name rt r_name (max_name_length (ops (connection self)))) +:+
       " FOREIGN KEY (" +:+ qn r_col +:+ ") REFERENCES " +:+ cqn qname +:+
       " (" +:+ qn col +:+ ")" +:+ deferrable_sql (ops (connection self)) +:+ ";"]).

(** Returns any ALTER TABLE statements to add constraints after the fact.
    The state is the [pending_references] dictionary. *)
Definition base_sql_for_pending_references (self : DatabaseCreation)
    (settings_dict : Settings) (m : Model) (style : Style)
  : M PendingReferences (list string) :=
  if negb (managed (_meta m)) || proxy (_meta m) then
    (* So, we have a reference to either unmanaged model or to a proxy
       model. Lets just clear the pending_references for now. *)
    pending_references ← get;
    _ ← (if contains pending_references m
         then d ← lift (delitem pending_references m); put d
         else mret tt);
    mret []
  else
    pending_references ← get;
    if contains pending_references m then
      refs ← lift (getitem pending_references m);
      final_output ←
        lift (foldM (pending_reference_sql self settings_dict m style) [] refs);
      d ← lift (delitem pending_references m);
      _ ← put d;
      mret final_output
    else mret [].

Definition base_qualified_index_name (self : DatabaseCreation) (m : Model)
    (col : string) : string :=
  let i_name := db_table (_meta m) +:+ "_" +:+ _digest [col] in
  let i_name := truncate_name rt i_name (max_name_length (ops (connection self))) in
  let qname := qualified_name (connection self) (_meta m) in
  compose_qualified_name (ops (connection self))
    (mkQName (schema qname) (Some i_name) false (Some (class_id (_meta m)))).

(** On MySQL we must use the db_schema prefixed to the index name as
    indexes can not be placed into different schemas. *)
Definition mysql_qualified_index_name (self : DatabaseCreation) (m : Model)
    (col : string) : result string :=
  let schema0 := py_or (db_schema (_meta m)) (connection_schema (connection self)) in
  let max_len := max_name_length (ops (connection self)) in
  schema_prefix ←
    (if truthy schema0 then
       match max_len, convert_schema (connection self) schema0 with
       | Some n, Some s => Ok (truncate_name rt s (Some (n / 2)%nat) +:+ "_")
       | _, _ => Raise TypeError
       end
     else Ok EmptyString);
  let i_name := schema_prefix +:+ db_table (_meta m) +:+ "_" +:+ _digest [col] in
  Ok (quote_name (ops (connection self)) (truncate_name rt i_name max_len)).

(** [self.qualified_index_name(model, col)] *)
Definition qualified_index_name (self : DatabaseCreation) (m : Model)
    (col : string) : result string :=
  match vendor self with
  | MySQL => mysql_qualified_index_name self m col
  | _ => Ok (base_qualified_index_name self m col)
  end.

(** Return the CREATE INDEX SQL statements for a single model field. *)
Definition sql_indexes_for_field (self : DatabaseCreation) (m : Model)
    (f : Field) (style : Style) : result (list string) :=
  if db_index f && negb (unique f) then
    let qn := quote_name (ops (connection self)) in
    let cqn := compose_qualified_name (ops (connection self)) in
    let qname := qualified_name (connection self) (_meta m) in
    let tablespace := py_or (field_db_tablespace f) (db_tablespace (_meta m)) in
    let tablespace_sql0 :=
      if truthy tablespace then
        let ts := tablespace_sql (ops (connection self))
                    (default EmptyString tablespace) false in
        if truthy (Some ts) then " " +:+ ts else ts
      else EmptyString in
    qualified_name0 ← qualified_index_name self m (column f);
    Ok [SQL_KEYWORD style "CREATE INDEX" +:+ " " +:+
        SQL_TABLE style qualified_name0 +:+ " " +:+
        SQL_KEYWORD style "ON" +:+ " " +:+
        SQL_TABLE style (cqn qname) +:+ " " +:+
        "(" +:+ SQL_FIELD style (qn (column f)) +:+ ")" +:+
        tablespace_sql0 +:+ ";"]
  else Ok [].

(** Returns the CREATE INDEX SQL statements for a single model. *)
Definition sql_indexes_for_model (self : DatabaseCreation) (m : Model)
    (style : Style) : result (list string) :=
  if negb (managed (_meta m)) || proxy (_meta m) then Ok []
  else
    foldM (λ output f, ix ← sql_indexes_for_field self m f style;
                       Ok (output ++ ix))
      [] (local_fields m).

(** Body of [for rel_class, f in references_to_delete[model]] in
    [sql_remove_table_constraints]. *)
Definition remove_constraint_sql (self : DatabaseCreation) (m : Model)
    (style : Style) (output : list string) (ref : Ref) : result (list string) :=
  let '(rel_class, f) := ref in
  let qn := quote_name (ops (connection self)) in
  let cqn := compose_qualified_name (ops (connection self)) in
  let table := db_table (_meta rel_class) in
  let r_qname := qualified_name (connection self) (_meta rel_class) in
  let col := column f in
  let r_table := db_table (_meta m) in
  r ← rel_attr f "field_name";
  target ← get_field m (field_name r);
  let r_col := column target in
  let r_name := col +:+ "_refs_" +:+ r_col +:+ "_" +:+ _digest [table; r_table] in
  Ok (output ++
      [SQL_KEYWORD style "ALTER TABLE" +:+ " " +:+
       SQL_TABLE style (cqn r_qname) +:+ " " +:+
       SQL_KEYWORD style (drop_foreignkey_sql (ops (connection self))) +:+ " " +:+
       SQL_FIELD style
         (qn (truncate_name rt r_name (max_name_length (ops (connection self)))))
       +:+ ";"]).

(** The state is the [references_to_delete] dictionary. *)
Definition sql_remove_table_constraints (self : DatabaseCreation) (m : Model)
    (style : Style) : M PendingReferences (list string) :=
  if negb (managed (_meta m)) || proxy (_meta m) then mret []
  else
    references_to_delete ← get;
    refs ← lift (getitem references_to_delete m);
    output ← lift (foldM (remove_constraint_sql self m style) [] refs);
    d ← lift (delitem references_to_delete m);
    _ ← put d;
    mret output.

(** Return the DROP TABLE and restraint dropping statements for a single
    model. *)
Definition sql_destroy_model (self : DatabaseCreation) (m : Model)
    (style : Style) : M PendingReferences (list string) :=
  if negb (managed (_meta m)) || proxy (_meta m) then mret []
  else
    (* Drop the table now *)
    let cqn := compose_qualified_name (ops (connection self)) in
    let qname := qualified_name (connection self) (_meta m) in
    let output := [SQL_KEYWORD style "DROP TABLE" +:+ " " +:+
                   SQL_TABLE style (cqn qname) +:+ ";"] in
    references_to_delete ← get;
    output ←
      (if contains references_to_delete m then
         cs ← sql_remove_table_constraints self m style;
         mret (output ++ cs)
       else mret output);
    let output :=
      if has_auto_field (_meta m) then
        let ds := drop_sequence_sql (ops (connection self)) (cqn qname) in
        if truthy ds then output ++ [default EmptyString ds] else output
      else output in
    mret output.

(** * django/db/backends/oracle/creation.py *)

(** [self.<attr>] for an attribute holding a connection: the instance has
    [connection] and nothing else of that kind. *)
Definition getattr (self : DatabaseCreation) (attr : string)
  : result DatabaseWrapper :=
  if String.eqb attr "connection" then Ok (connection self)
  else Raise (AttributeError attr).

(** Body of [for rel_class, f in pending_references[model]] in the first
    pass; the accumulator is [(cross_schema_refs, single_schema_refs)].
    The attribute name of the first argument is the one in the source. *)
Definition split_reference (self : DatabaseCreation) (settings_dict : Settings)
    (m : Model) (acc : list Ref * list Ref) (ref : Ref)
  : result (list Ref * list Ref) :=
  let '(cross_schema_refs, single_schema_refs) := acc in
  let '(rel_class, f) := ref in
  c ← getattr self "connectino";
  sep ← needs_separate_conn self settings_dict
          (qualified_name c (_meta rel_class))
          (qualified_name (connection self) (_meta m));
  if sep : bool then Ok (cross_schema_refs ++ [(rel_class, f)], single_schema_refs)
  else Ok (cross_schema_refs, single_schema_refs ++ [(rel_class, f)]).

Definition oracle_sql_for_pending_references (self : DatabaseCreation)
    (settings_dict : Settings) (m : Model) (style : Style) (second_pass : bool)
  : M PendingReferences (list string) :=
  if second_pass then
    base_sql_for_pending_references self settings_dict m style
  else
    (* Split the "safe" and "unsafe" references apart, and call
       the super() method for the safe set. *)
    pending_references ← get;
    '(cross_schema_refs, single_schema_refs) ←
      (if contains pending_references m then
         refs ← lift (getitem pending_references m);
         lift (foldM (split_reference self settings_dict m) ([], []) refs)
       else mret ([], []));
    sql ←
      (match single_schema_refs with
       | _ :: _ =>
           _ ← modify (λ d, setitem d m single_schema_refs);
           base_sql_for_pending_references self settings_dict m style
       | [] => mret []
       end);
    _ ← (match cross_schema_refs with
         | _ :: _ => modify (λ d, setitem d m cross_schema_refs)
         | [] => mret tt
         end);
    mret sql.

(** [self.sql_for_pending_references(model, style, pending_references)] *)
Definition sql_for_pending_references (self : DatabaseCreation)
    (settings_dict : Settings) (m : Model) (style : Style)
  : M PendingReferences (list string) :=
  match vendor self with
  | Oracle => oracle_sql_for_pending_references self settings_dict m style false
  | _ => base_sql_for_pending_references self settings_dict m style
  end.

(** ** The connection as a mutable object

    [dicts] is the heap of dictionary objects, [settings_ref] the one bound to
    [connection.settings_dict]; [session] is the user the open connection
    logged in as, [None] when the connection is closed; [executed] lists the
    statements sent through a cursor with the user of their session. *)
Record World := mkWorld {
  dicts : list Settings;
  settings_ref : nat;
  session : option string;
  executed : list (string * string)
}.

(** The database server, an external collaborator. *)
Record Database := mkDatabase {
  accepts_login : string → bool;
  accepts : string → string → bool
}.

Definition settings_of (w : World) : Settings :=
  default ∅ (dicts w !! settings_ref w).

Definition current_settings : M World Settings := λ w, (Ok (settings_of w), w).

(** [self.connection.close()] *)
Definition close : M World unit :=
  modify (λ w, mkWorld (dicts w) (settings_ref w) None (executed w)).

(** [self.connection.settings_dict.copy()]: a new dictionary object. *)
Definition copy_settings : M World nat := λ w,
  (Ok (length (dicts w)),
   mkWorld (dicts w ++ [settings_of w]) (settings_ref w) (session w) (executed w)).

(** [self.connection.settings_dict[key] = v]: in place. *)
Definition set_setting (key v : string) : M World unit :=
  modify (λ w, mkWorld (<[settings_ref w := <[key := v]> (settings_of w)]> (dicts w))
                 (settings_ref w) (session w) (executed w)).

(** [self.connection.settings_dict = d]: rebinds the attribute. *)
Definition bind_settings (d : nat) : M World unit :=
  modify (λ w, mkWorld (dicts w) d (session w) (executed w)).

Context (db : Database).

(** [self.connection.cursor()]: logs in with the current settings when the
    connection is closed. *)
Definition cursor : M World unit := λ w,
  match session w with
  | Some _ => (Ok tt, w)
  | None =>
      match setting (settings_of w) "USER" with
      | Ok u =>
          if accepts_login db u
          then (Ok tt, mkWorld (dicts w) (settings_ref w) (Some u) (executed w))
          else (Raise (DatabaseError "connect"), w)
      | Raise e => (Raise e, w)
      end
  end.

(** [cursor.execute(q)] *)
Definition execute (q : string) : M World unit := λ w,
  match session w with
  | None => (Raise InterfaceError, w)
  | Some u =>
      let w' := mkWorld (dicts w) (settings_ref w) (session w)
                  (executed w ++ [(u, q)]) in
      if accepts db u q then (Ok tt, w') else (Raise (DatabaseError q), w')
  end.

(** [old_settings] is bound by the first statement of the [try] block, a
    dictionary copy, which cannot raise; it is written before the block. *)
Definition _run_sql_as_user (user : string) (sql : list string) : M World unit :=
  match sql with
  | [] => mret tt
  | _ :: _ =>
      _ ← close;
      old_settings ← copy_settings;
      try_finally
        (_ ← set_setting "USER" user;
         _ ← cursor;
         forM_ execute sql)
        (_ ← close;
         bind_settings old_settings)
  end.

Definition dq : string := String "034"%char EmptyString.

Definition connect_comment (schema0 : string) : string :=
  "-- Connect as user " +:+ dq +:+ schema0 +:+ dq.

Definition _grant_references (self : DatabaseCreation) (schema0 : string)
    (grant_to : list (Model * string)) (as_sql : bool) : M World (list string) :=
  let sql := if as_sql then [connect_comment schema0] else [] in
  let qn := quote_name (ops (connection self)) in
  let sql := sql ++ map (λ '(m, user),
                           "GRANT REFERENCES ON " +:+ qn (db_table (_meta m)) +:+
                           " TO " +:+ qn user) grant_to in
  _ ← (if as_sql then mret tt else _run_sql_as_user schema0 sql);
  mret sql.

(** [conv(self.connection.qualified_name(model), force_schema=True).schema].
    A forced schema is a string: either the truthy schema of the name or
    [settings_dict['USER']]; the [None] branch is not reachable. *)
Definition forced_schema (self : DatabaseCreation) (settings_dict : Settings)
    (opts : Options) : result string :=
  q ← oracle_qname_converter (connection self) settings_dict
        (qualified_name (connection self) opts) true;
  match schema q with
  | Some s => Ok s
  | None => Raise TypeError
  end.

(** [grant_to.add((model, to_user))] on a set kept in insertion order. *)
Definition set_add (grant_to : list (Model * string)) (x : Model * string)
  : list (Model * string) :=
  if existsb (λ y, String.eqb (class_id (_meta y.1)) (class_id (_meta x.1))
                   && String.eqb y.2 x.2) grant_to
  then grant_to else grant_to ++ [x].

(** Build a dictionary: from_schema -> [(model, refs)...] *)
Definition add_to_schema (self : DatabaseCreation)
    (references_to_schema : gmap string (list (Model * list Ref)))
    (item : Model * list Ref)
  : M World (gmap string (list (Model * list Ref))) :=
  let '(m, refs) := item in
  s ← current_settings;
  schema0 ← lift (forced_schema self s (_meta m));
  mret (<[schema0 := default [] (references_to_schema !! schema0) ++ [(m, refs)]]>
          references_to_schema).

(** Pass 1: give grants. *)
Definition grant_pass (self : DatabaseCreation) (as_sql : bool)
    (sql : list string) (item : string * list (Model * list Ref))
  : M World (list string) :=
  let '(schema0, all_refs) := item in
  grant_to ←
    foldS (λ grant_to '(m, refs),
             foldS (λ grant_to (ref : Ref),
                      s ← current_settings;
                      to_user ← lift (forced_schema self s (_meta ref.1));
                      if bool_decide (to_user ≠ schema0)
                      then mret (set_add grant_to (m, to_user))
                      else mret grant_to)
               grant_to refs)
      [] all_refs;
  g ← _grant_references self schema0 grant_to as_sql;
  mret (sql ++ g).

(** Prepare for pass 2: a pending_references for each schema separately. *)
Definition add_from_schema (self : DatabaseCreation)
    (references_from_schema : gmap string PendingReferences)
    (item : Model * list Ref) : M World (gmap string PendingReferences) :=
  let '(m, refs) := item in
  foldS (λ rfs (ref : Ref),
           s ← current_settings;
           schema0 ← lift (forced_schema self s (_meta ref.1));
           mret (<[schema0 := setdefault_append (default ∅ (rfs !! schema0)) m ref]> rfs))
    references_from_schema refs.

(** Pass 2: create the actual references. *)
Definition alter_pass (self : DatabaseCreation) (as_sql : bool)
    (sql : list string) (item : string * PendingReferences)
  : M World (list string) :=
  let '(schema0, ref_dict) := item in
  let per_schema_sql := if as_sql then [connect_comment schema0] else [] in
  s ← current_settings;
  per_schema_sql ←
    lift (eval (foldS (λ per_schema_sql '(m, _),
                         ref_sql ← oracle_sql_for_pending_references self s m
                                     no_style true;
                         mret (per_schema_sql ++ ref_sql))
                  per_schema_sql (items ref_dict))
            ref_dict);
  _ ← (if as_sql then mret tt else _run_sql_as_user schema0 per_schema_sql);
  mret (sql ++ per_schema_sql).

Definition oracle_post_create_pending_references (self : DatabaseCreation)
    (pending_references : PendingReferences) (as_sql : bool)
  : M World (list string) :=
  references_to_schema ← foldS (add_to_schema self) ∅ (items pending_references);
  sql ← foldS (grant_pass self as_sql) [] (map_to_list references_to_schema);
  references_from_schema ←
    foldS (add_from_schema self) ∅ (items pending_references);
  foldS (alter_pass self as_sql) sql (map_to_list references_from_schema).

(** Create any pending references which need special handling (for example
    different connections): left to the backends in the base class. *)
Definition base_post_create_pending_references
    (pending_references : PendingReferences) (as_sql : bool)
  : M World (list string) :=
  raise NotImplementedError.

(** [self.post_create_pending_references(pending_references, as_sql)] *)
Definition post_create_pending_references (self : DatabaseCreation)
    (pending_references : PendingReferences) (as_sql : bool)
  : M World (list string) :=
  match vendor self with
  | Oracle => oracle_post_create_pending_references self pending_references as_sql
  | _ => base_post_create_pending_references pending_references as_sql
  end.

End Creation.

(** * A concrete schema: tests/modeltests/dbschemas/models.py

    [SameName1] lives in the default schema, [SameName2] in [schema1] with a
    foreign key to [SameName1]; [Legacy] is an unmanaged table. *)

Definition id_field (owner : Options) : Field :=
  mkField "id" "id" None None false false true true false None owner.

Definition SameName1_meta : Options :=
  mkOptions "dbschemas.SameName1" "sn" None true false None [] true.

Definition SameName1 : Model :=
  let txt := mkField "txt" "txt" None None true true false false false None
               SameName1_meta in
  mkModel SameName1_meta [id_field SameName1_meta; txt]
    [id_field SameName1_meta; txt] (Some (id_field SameName1_meta)).

Definition SameName2_meta : Options :=
  mkOptions "dbschemas.SameName2" "sn" (Some "schema1") true false None [] true.

Definition SameName2_fk : Field :=
  mkField "fk" "fk_id" None None false false false false true
    (Some (mkRel SameName1 "id")) SameName2_meta.

Definition SameName2 : Model :=
  mkModel SameName2_meta [id_field SameName2_meta; SameName2_fk]
    [id_field SameName2_meta; SameName2_fk] (Some (id_field SameName2_meta)).

Definition Legacy_meta : Options :=
  mkOptions "dbschemas.Legacy" "legacy" None false false None [] true.

Definition Legacy : Model :=
  mkModel Legacy_meta [id_field Legacy_meta] [id_field Legacy_meta]
    (Some (id_field Legacy_meta)).

(** A foreign key of [SameName2] to the unmanaged table. *)
Definition Legacy_fk : Field :=
  mkField "legacy" "legacy_id" None None false false false false true
    (Some (mkRel Legacy "id")) SameName2_meta.

Definition test_quote_name (s : string) : string := dq +:+ s +:+ dq.

Definition test_compose_qualified_name (q : QName) : string :=
  let t := test_quote_name (default EmptyString (table q)) in
  if truthy (schema q) then test_quote_name (default EmptyString (schema q)) +:+ "." +:+ t
  else t.

Definition test_ops : DatabaseOperations :=
  mkOps test_quote_name test_compose_qualified_name (Some 30%nat)
    " DEFERRABLE INITIALLY DEFERRED" "DROP CONSTRAINT"
    (λ t inline, (if inline then "USING INDEX " else EmptyString) +:+ "TABLESPACE " +:+
                 test_quote_name t)
    (λ _ _, None) (λ _, None).

Definition test_connection : DatabaseWrapper :=
  mkWrapper test_ops (mkFeatures true)
    (λ opts, mkQName (db_schema opts) (Some (db_table opts)) false
               (Some (class_id opts)))
    id None (λ _, Some "NUMBER(11)").

Definition test_settings : Settings :=
  <["USER" := "django"]> (<["NAME" := "xe"]> ∅).

(** An interpreter whose [hash] adds [seed] to the total length of the
    arguments, and a [truncate_name] that keeps a prefix. *)
Definition test_runtime (seed : Z) : Runtime :=
  mkRuntime (λ args, (seed + Z.of_nat (String.length (String.concat "," args)))%Z)
    (λ s n, match n with
            | Some k => if (String.length s <=? k)%nat then s else substring 0 k s
            | None => s
            end).

Definition test_world : World := mkWorld [test_settings] 0 (Some "django") [].

(** A server that accepts every login and every statement, and one that
    rejects every statement. *)
Definition permissive : Database := mkDatabase (λ _, true) (λ _ _, true).
Definition rejecting : Database := mkDatabase (λ _, true) (λ _ _, false).

(** The pending references left after creating [SameName2] first. *)
Definition test_pending : PendingReferences :=
  setdefault_append ∅ SameName1 (SameName2, SameName2_fk).

(** The creation objects of the three backends over the test connection. *)
Definition base_creation : DatabaseCreation := mkCreation Base test_connection.
Definition mysql_creation : DatabaseCreation := mkCreation MySQL test_connection.
Definition oracle_creation : DatabaseCreation := mkCreation Oracle test_connection.

(** * Vocabulary of the statements

    The statement templates of the specification, to compare with what the
    code writes. *)

(** A pending entry of [m] is a foreign key to one of its fields. *)
Definition is_foreign_key_to (m : Model) (ref : Ref) : bool :=
  match rel ref.2 with
  | Some r => match get_field m (field_name r) with Ok _ => true | Raise _ => false end
  | None => false
  end.

Definition target_column (m : Model) (ref : Ref) : string :=
  match rel ref.2 with
  | Some r => match get_field m (field_name r) with Ok t => column t | Raise _ => EmptyString end
  | None => EmptyString
  end.

(** The name the referencing table goes by in the ALTER TABLE statement. *)
Definition referencing_name (self : DatabaseCreation) (settings_dict : Settings)
    (m : Model) (ref : Ref) : string :=
  match qualified_name_for_ref self settings_dict
          (qualified_name (connection self) (_meta m))
          (qualified_name (connection self) (_meta ref.1)) with
  | Ok n => n
  | Raise _ => EmptyString
  end.

(** [<refcol>_refs_<targetcol>_<digest(refTable, thisTable)>], truncated. *)
Definition spec_constraint_name (rt : Runtime) (self : DatabaseCreation)
    (m : Model) (ref : Ref) : string :=
  truncate_name rt
    (column ref.2 +:+ "_refs_" +:+ target_column m ref +:+ "_" +:+
     _digest rt [db_table (_meta ref.1); db_table (_meta m)])
    (max_name_length (ops (connection self))).

(** [ALTER TABLE <referencing> ADD CONSTRAINT <name> FOREIGN KEY (<col>)
    REFERENCES <this> (<target-col>)], for the constraint name [cname]. *)
Definition spec_add_constraint (self : DatabaseCreation)
    (settings_dict : Settings) (m : Model) (style : Style) (ref : Ref)
    (cname : string) : string :=
  let qn := quote_name (ops (connection self)) in
  SQL_KEYWORD style "ALTER TABLE" +:+ " " +:+
  referencing_name self settings_dict m ref +:+
  " ADD CONSTRAINT " +:+ qn cname +:+
  " FOREIGN KEY (" +:+ qn (column ref.2) +:+ ") REFERENCES " +:+
  compose_qualified_name (ops (connection self))
    (qualified_name (connection self) (_meta m)) +:+
  " (" +:+ qn (target_column m ref) +:+ ")" +:+
  deferrable_sql (ops (connection self)) +:+ ";".

(** [ALTER TABLE <referencing> <drop-foreign-key> <name>], for the
    constraint name [cname]. *)
Definition spec_drop_constraint (self : DatabaseCreation)
    (style : Style) (ref : Ref) (cname : string) : string :=
  SQL_KEYWORD style "ALTER TABLE" +:+ " " +:+
  SQL_TABLE style (compose_qualified_name (ops (connection self))
                     (qualified_name (connection self) (_meta ref.1))) +:+ " " +:+
  SQL_KEYWORD style (drop_foreignkey_sql (ops (connection self))) +:+ " " +:+
  SQL_FIELD style (quote_name (ops (connection self)) cname) +:+ ";".

(** [REFERENCES <target> (<target-col>)], the inline clause. *)
Definition spec_inline_reference (self : DatabaseCreation) (style : Style)
    (r : Rel) (target : Field) : string :=
  SQL_KEYWORD style "REFERENCES" +:+ " " +:+
  SQL_TABLE style (compose_qualified_name (ops (connection self))
                     (qualified_name (connection self) (_meta (to r)))) +:+
  " (" +:+ SQL_FIELD style (quote_name (ops (connection self)) (column target))
  +:+ ")" +:+ deferrable_sql (ops (connection self)).

Definition is_ok {A} (r : result A) : bool :=
  match r with Ok _ => true | Raise _ => false end.

(** A column-backed foreign key of the table being created whose target,
    the class [key], is not among [known_models]. *)
Definition deferred_to (self : DatabaseCreation) (known_models : gset string)
    (key : string) (f : Field) : bool :=
  match db_type (connection self) f, rel f with
  | Some _, Some r =>
      bool_decide (class_id (_meta (to r)) = key) && negb (known known_models (to r))
  | _, _ => false
  end.

Definition deferred_refs (self : DatabaseCreation) (known_models : gset string)
    (m : Model) (key : string) : list Ref :=
  map (pair m) (List.filter (deferred_to self known_models key) (local_fields m)).

(** What [sql_create_model] needs of a model to return: the target field of
    every inline foreign key, the fields named in [unique_together] and the
    auto field when [has_auto_field] is set. *)
Definition inline_target_exists (self : DatabaseCreation)
    (known_models : gset string) (f : Field) : bool :=
  match db_type (connection self) f, rel f with
  | Some _, Some r =>
      if known known_models (to r) then is_ok (get_field (to r) (field_name r))
      else true
  | _, _ => true
  end.

Definition well_formed_model (self : DatabaseCreation)
    (known_models : gset string) (m : Model) : bool :=
  forallb (inline_target_exists self known_models) (local_fields m)
  && forallb (forallb (λ n, is_ok (get_field m n))) (unique_together (_meta m))
  && (if has_auto_field (_meta m) then bool_decide (is_Some (auto_field m))
      else true).

(** The dictionary after the loop body of [sql_create_model] on [f]. *)
Definition record_field (self : DatabaseCreation) (known_models : gset string)
    (m : Model) (p : PendingReferences) (f : Field) : PendingReferences :=
  match db_type (connection self) f, rel f with
  | Some _, Some r =>
      if known known_models (to r) then p else setdefault_append p (to r) (m, f)
  | _, _ => p
  end.

(** [GRANT REFERENCES ON <table> TO <grantee>] *)
Definition spec_grant (self : DatabaseCreation) (m : Model) (grantee : string)
  : string :=
  "GRANT REFERENCES ON " +:+ quote_name (ops (connection self)) (db_table (_meta m))
  +:+ " TO " +:+ quote_name (ops (connection self)) grantee.

(** The statements sent to the server between two states of the connection. *)
Definition executed_between (w w' : World) : list (string * string) :=
  drop (length (executed w)) (executed w').

(** No statement of the log ran on a session of user [u0]. *)
Definition avoids_user (u0 : option string) (log : list (string * string)) : Prop :=
  ∀ x, x ∈ log → Some x.1 ≠ u0.

(** The connection's dictionary is one of the dictionary objects. *)
Definition well_formed_world (w : World) : Prop :=
  (settings_ref w < length (dicts w))%nat.

(** * Further functions of the creation and introspection modules *)

(** postgresql_psycopg2/introspection.py: on postgresql it is impossible to
    force usage of schema - there is no single default schema. *)
Definition postgresql_qname_converter (conn : DatabaseWrapper) (qname : QName)
    (force_schema : bool) : QName :=
  if db_format qname then qname
  else mkQName (py_or (schema qname) (connection_schema conn)) (table qname)
         true (qname_model qname).

(** [try: body except AttributeError: handler] *)
Definition except_AttributeError {A} (body handler : result A) : result A :=
  match body with
  | Raise (AttributeError _) => handler
  | r => r
  end.

(** [try: body except KeyError: handler] *)
Definition except_KeyError {A} (body handler : result A) : result A :=
  match body with
  | Raise (KeyError _) => handler
  | r => r
  end.

Definition TEST_DATABASE_PREFIX : string := "test_".
Definition PASSWORD : string := "Im_a_lumberjack".

(** creation.py: the name of the test database that will be created. *)
Definition base_get_test_db_name (settings_dict : Settings) : result string :=
  t ← setting settings_dict "TEST_NAME";
  if truthy (Some t) then setting settings_dict "TEST_NAME"
  else n ← setting settings_dict "NAME"; Ok (TEST_DATABASE_PREFIX +:+ n).

(** oracle/creation.py: the 'production' DB name. *)
Definition oracle_get_test_db_name (settings_dict : Settings) : result string :=
  setting settings_dict "NAME".

(** [self._get_test_db_name()] *)
Definition _get_test_db_name (self : DatabaseCreation) (settings_dict : Settings)
  : result string :=
  match vendor self with
  | Oracle => oracle_get_test_db_name settings_dict
  | _ => base_get_test_db_name settings_dict
  end.

(** oracle/creation.py; the handler is for [AttributeError]. *)
Definition _test_database_name (settings_dict : Settings) : result string :=
  n ← setting settings_dict "NAME";
  let name0 := TEST_DATABASE_PREFIX +:+ n in
  except_AttributeError
    (t ← setting settings_dict "TEST_NAME";
     if truthy (Some t) then setting settings_dict "TEST_NAME" else Ok name0)
    (Ok name0).

Definition _test_database_user (settings_dict : Settings) : result string :=
  u ← setting settings_dict "USER";
  let name0 := TEST_DATABASE_PREFIX +:+ u in
  except_KeyError
    (t ← setting settings_dict "TEST_USER";
     if truthy (Some t) then setting settings_dict "TEST_USER" else Ok name0)
    (Ok name0).

Definition _test_database_passwd (settings_dict : Settings) : result string :=
  let name0 := PASSWORD in
  except_KeyError
    (t ← setting settings_dict "TEST_PASSWD";
     if truthy (Some t) then setting settings_dict "TEST_PASSWD" else Ok name0)
    (Ok name0).

Definition _test_database_tblspace (settings_dict : Settings) : result string :=
  n ← setting settings_dict "NAME";
  let name0 := TEST_DATABASE_PREFIX +:+ n in
  except_KeyError
    (t ← setting settings_dict "TEST_TBLSPACE";
     if truthy (Some t) then setting settings_dict "TEST_TBLSPACE" else Ok name0)
    (Ok name0).

Definition _test_database_tblspace_tmp (settings_dict : Settings) : result string :=
  n ← setting settings_dict "NAME";
  let name0 := TEST_DATABASE_PREFIX +:+ n +:+ "_temp" in
  except_KeyError
    (t ← setting settings_dict "TEST_TBLSPACE_TMP";
     if truthy (Some t) then setting settings_dict "TEST_TBLSPACE_TMP"
     else Ok name0)
    (Ok name0).

Definition _get_ddl_parameters (settings_dict : Settings) : result Settings :=
  TEST_NAME ← _test_database_name settings_dict;
  TEST_USER ← _test_database_user settings_dict;
  TEST_PASSWD ← _test_database_passwd settings_dict;
  TEST_TBLSPACE ← _test_database_tblspace settings_dict;
  TEST_TBLSPACE_TMP ← _test_database_tblspace_tmp settings_dict;
  Ok (<["dbname" := TEST_NAME]>
        (<["user" := TEST_USER]>
           (<["password" := TEST_PASSWD]>
              (<["tblspace" := TEST_TBLSPACE]>
                 (<["tblspace_temp" := TEST_TBLSPACE_TMP]> ∅))))).

(** mysql/creation.py *)
Definition mysql_sql_table_creation_suffix (settings_dict : Settings) : result string :=
  cs ← setting settings_dict "TEST_CHARSET";
  let suffix := if truthy (Some cs) then ["CHARACTER SET " +:+ cs] else [] in
  co ← setting settings_dict "TEST_COLLATION";
  let suffix := if truthy (Some co) then suffix ++ ["COLLATE " +:+ co] else suffix in
  Ok (String.concat " " suffix).

(** ** Vocabulary for the further properties *)

(** The schema of [conv(QName(None, None, False), force_schema=True)], the
    [def_schema] of [needs_separate_conn]. *)
Definition default_qname : QName := mkQName None None false None.

(** The fields of [m] that get a CREATE INDEX statement. *)
Definition indexed_fields (m : Model) : list Field :=
  List.filter (λ f, db_index f && negb (unique f)) (local_fields m).

(** The statements of [sql_destroy_model] around the constraint drops. *)
Definition spec_drop_table (self : DatabaseCreation) (m : Model) (style : Style)
  : string :=
  SQL_KEYWORD style "DROP TABLE" +:+ " " +:+
  SQL_TABLE style (compose_qualified_name (ops (connection self))
                     (qualified_name (connection self) (_meta m))) +:+ ";".

Definition spec_drop_sequence (self : DatabaseCreation) (m : Model) : list string :=
  if has_auto_field (_meta m) then
    match drop_sequence_sql (ops (connection self))
            (compose_qualified_name (ops (connection self))
               (qualified_name (connection self) (_meta m))) with
    | Some ds => if truthy (Some ds) then [ds] else []
    | None => []
    end
  else [].


(** A column-backed foreign key to the class [key]. *)
Definition references (self : DatabaseCreation) (key : string) (f : Field) : bool :=
  match db_type (connection self) f, rel f with
  | Some _, Some r => bool_decide (class_id (_meta (to r)) = key)
  | _, _ => false
  end.

(** * Properties *)

(** ** Monad and dictionary facts *)

(** One step of the state monad: expose the binds and returns at the head
    of the goal, leaving the methods folded. *)
Ltac run_M := unfold mbind, M_bind, mret, M_ret.

Lemma foldM_cons {A B} (body : A → B → result A) acc x l :
  foldM body acc (x :: l) = acc' ← body acc x; foldM body acc' l.
Proof. reflexivity. Qed.

Lemma foldM_ext {A B} (f g : A → B → result A) l : ∀ acc,
  (∀ a x, f a x = g a x) → foldM f acc l = foldM g acc l.
Proof.
  induction l as [|x l IH]; intros acc H; [done|].
  rewrite !foldM_cons, H. destruct (g acc x); simpl; [by apply IH | done].
Qed.

Lemma contains_true {V} (d : ModelDict V) m :
  contains d m = true ↔ is_Some (d !! class_id (_meta m)).
Proof. unfold contains. apply bool_decide_eq_true. Qed.

Lemma contains_false {V} (d : ModelDict V) m :
  contains d m = false ↔ d !! class_id (_meta m) = None.
Proof.
  unfold contains. rewrite bool_decide_eq_false.
  by rewrite eq_None_not_Some.
Qed.

Lemma unmanaged_guard (opts : Options) :
  managed opts = false ∨ proxy opts = true →
  negb (managed opts) || proxy opts = true.
Proof. intros [-> | ->]; [done | apply orb_true_r]. Qed.

Lemma managed_guard (opts : Options) :
  managed opts = true → proxy opts = false →
  negb (managed opts) || proxy opts = false.
Proof. by intros -> ->. Qed.

(** ** Unmanaged and proxy models *)

(** C9. For a model that is unmanaged or a proxy, [sql_create_model] returns
    no statement and an empty pending-reference dictionary,
    [sql_indexes_for_model] returns no statement and [sql_destroy_model]
    returns no statement (and leaves [references_to_delete] as it is). *)
Theorem unmanaged_or_proxy_model_has_no_ddl
    rt self settings_dict m style known_models references_to_delete :
  managed (_meta m) = false ∨ proxy (_meta m) = true →
  sql_create_model self settings_dict m style known_models = Ok ([], ∅)
  ∧ sql_indexes_for_model rt self m style = Ok []
  ∧ sql_destroy_model rt self m style references_to_delete
    = (Ok [], references_to_delete).
Proof.
  intros H%unmanaged_guard.
  unfold sql_create_model, sql_indexes_for_model, sql_destroy_model.
  by rewrite H.
Qed.

Lemma unmanaged_or_proxy_model_has_no_ddl_witness :
  (managed (_meta Legacy) = false ∨ proxy (_meta Legacy) = true)
  ∧ sql_create_model base_creation test_settings Legacy no_style ∅ = Ok ([], ∅)
  ∧ sql_indexes_for_model (test_runtime 0) base_creation Legacy no_style = Ok []
  ∧ sql_destroy_model (test_runtime 0) base_creation Legacy no_style test_pending
    = (Ok [], test_pending).
Proof.
  split; [left; reflexivity |].
  apply (unmanaged_or_proxy_model_has_no_ddl (test_runtime 0) base_creation
           test_settings Legacy no_style ∅ test_pending).
  left; reflexivity.
Defined.

(** C10. [sql_for_pending_references] on a target that is unmanaged or a
    proxy returns no statement and deletes the model's entry from the
    pending references, whatever the entry holds: the deferred constraints
    are dropped without a trace. *)
Theorem pending_references_to_unmanaged_are_discarded
    rt self settings_dict m style (pending_references : PendingReferences) :
  managed (_meta m) = false ∨ proxy (_meta m) = true →
  base_sql_for_pending_references rt self settings_dict m style pending_references
  = (Ok [], delete (class_id (_meta m)) pending_references).
Proof.
  intros H%unmanaged_guard. unfold base_sql_for_pending_references.
  rewrite H. unfold mbind, M_bind, get, mret, M_ret; simpl.
  destruct (contains pending_references m) eqn:E.
  - apply contains_true in E as [v E].
    unfold delitem, lift, put. by rewrite E.
  - apply contains_false in E. by rewrite delete_id.
Qed.

Lemma pending_references_to_unmanaged_are_discarded_witness :
  (managed (_meta Legacy) = false ∨ proxy (_meta Legacy) = true)
  ∧ base_sql_for_pending_references (test_runtime 0) base_creation test_settings
      Legacy no_style (setdefault_append ∅ Legacy (SameName2, SameName2_fk))
    = (Ok [], delete (class_id (_meta Legacy))
                (setdefault_append ∅ Legacy (SameName2, SameName2_fk))).
Proof.
  split; [left; reflexivity |].
  apply (pending_references_to_unmanaged_are_discarded (test_runtime 0)
           base_creation test_settings Legacy no_style).
  left; reflexivity.
Defined.

(** ** Inline references *)

(** C6. On MySQL [sql_for_inline_foreign_key_references] returns no clause
    and [pending = True] for every field, every [known_models] and every
    style, also through the dispatch on a MySQL creation object; and so the
    CREATE TABLE statement and the pending references of [sql_create_model]
    are those obtained with no known model at all. *)
Theorem mysql_inline_references_are_always_pending
    conn settings_dict field known_models style :
  mysql_sql_for_inline_foreign_key_references (mkCreation MySQL conn) field
    known_models style = ([], true)
  ∧ sql_for_inline_foreign_key_references (mkCreation MySQL conn) settings_dict
      field known_models style = Ok ([], true)
  ∧ ∀ m, sql_create_model (mkCreation MySQL conn) settings_dict m style known_models
         = sql_create_model (mkCreation MySQL conn) settings_dict m style ∅.
Proof.
  split; [reflexivity|]. split; [reflexivity|].
  intros m. unfold sql_create_model.
  destruct (negb _ || _); [done|].
  rewrite (foldM_ext
             (sql_create_model_field (mkCreation MySQL conn) settings_dict m style
                known_models)
             (sql_create_model_field (mkCreation MySQL conn) settings_dict m style ∅));
    [done|].
  by intros [out p] f.
Qed.

(** ** Pending references: creation and removal of the constraints *)

Lemma qualified_name_for_ref_ok self settings_dict from_table ref_table :
  (vendor self = MySQL → is_Some (settings_dict !! "NAME")) →
  ∃ n, qualified_name_for_ref self settings_dict from_table ref_table = Ok n.
Proof.
  intros Hname. unfold qualified_name_for_ref.
  destruct (vendor self) eqn:Ev; eauto.
  destruct (Hname eq_refl) as [v Hv].
  unfold mysql_qualified_name_for_ref, mysql_qname_converter, setting.
  rewrite !andb_false_r, Hv.
  destruct (db_format from_table && _), (db_format ref_table && _); simpl;
    repeat match goal with |- context [match ?o with Some _ => _ | None => _ end] =>
             destruct o; simpl end; eauto.
Qed.

Lemma referencing_name_eq self settings_dict m ref n :
  qualified_name_for_ref self settings_dict
    (qualified_name (connection self) (_meta m))
    (qualified_name (connection self) (_meta ref.1)) = Ok n →
  referencing_name self settings_dict m ref = n.
Proof. unfold referencing_name. by intros ->. Qed.

Lemma pending_reference_sql_spec rt self settings_dict m style out ref :
  (vendor self = MySQL → is_Some (settings_dict !! "NAME")) →
  is_foreign_key_to m ref = true →
  pending_reference_sql rt self settings_dict m style out ref
  = Ok (out ++ [spec_add_constraint self settings_dict m style ref
                  (spec_constraint_name rt self m ref)]).
Proof.
  intros Hname Hfk. destruct ref as [rel_class f].
  destruct (qualified_name_for_ref_ok self settings_dict
              (qualified_name (connection self) (_meta m))
              (qualified_name (connection self) (_meta rel_class)) Hname)
    as [n Hn].
  unfold pending_reference_sql, spec_add_constraint, spec_constraint_name,
    target_column, is_foreign_key_to, rel_attr in *; simpl in *.
  rewrite (referencing_name_eq self settings_dict m (rel_class, f) n Hn), Hn; simpl.
  destruct (rel f) as [r|]; [|done]; simpl.
  destruct (get_field m (field_name r)) as [target|]; [|done]; simpl.
  reflexivity.
Qed.

Lemma pending_reference_fold rt self settings_dict m style refs : ∀ out,
  (vendor self = MySQL → is_Some (settings_dict !! "NAME")) →
  forallb (is_foreign_key_to m) refs = true →
  foldM (pending_reference_sql rt self settings_dict m style) out refs
  = Ok (out ++ map (λ ref, spec_add_constraint self settings_dict m style ref
                             (spec_constraint_name rt self m ref)) refs).
Proof.
  induction refs as [|ref refs IH]; intros out Hname Hall; simpl.
  - by rewrite app_nil_r.
  - apply andb_prop in Hall as [Hfk Hall].
    rewrite pending_reference_sql_spec by done. simpl.
    rewrite IH by done. by rewrite <- app_assoc.
Qed.

Lemma remove_constraint_sql_spec rt self m style out ref :
  is_foreign_key_to m ref = true →
  remove_constraint_sql rt self m style out ref
  = Ok (out ++ [spec_drop_constraint self style ref
                  (spec_constraint_name rt self m ref)]).
Proof.
  intros Hfk. destruct ref as [rel_class f].
  unfold remove_constraint_sql, spec_drop_constraint, spec_constraint_name,
    target_column, is_foreign_key_to, rel_attr in *; simpl in *.
  destruct (rel f) as [r|]; [|done]; simpl.
  destruct (get_field m (field_name r)) as [target|]; [|done]; simpl.
  reflexivity.
Qed.

Lemma remove_constraint_fold rt self m style refs : ∀ out,
  forallb (is_foreign_key_to m) refs = true →
  foldM (remove_constraint_sql rt self m style) out refs
  = Ok (out ++ map (λ ref, spec_drop_constraint self style ref
                             (spec_constraint_name rt self m ref)) refs).
Proof.
  induction refs as [|ref refs IH]; intros out Hall; simpl.
  - by rewrite app_nil_r.
  - apply andb_prop in Hall as [Hfk Hall].
    rewrite remove_constraint_sql_spec by done. simpl.
    rewrite IH by done. by rewrite <- app_assoc.
Qed.

Lemma base_sql_for_pending_references_spec
    rt self settings_dict m style (pending_references : PendingReferences) k refs :
  managed (_meta m) = true → proxy (_meta m) = false →
  (vendor self = MySQL → is_Some (settings_dict !! "NAME")) →
  pending_references !! class_id (_meta m) = Some (k, refs) →
  forallb (is_foreign_key_to m) refs = true →
  base_sql_for_pending_references rt self settings_dict m style pending_references
  = (Ok (map (λ ref, spec_add_constraint self settings_dict m style ref
                       (spec_constraint_name rt self m ref)) refs),
     delete (class_id (_meta m)) pending_references).
Proof.
  intros Hm Hp Hname Hk Hall. unfold base_sql_for_pending_references.
  rewrite managed_guard by done.
  unfold mbind, M_bind, get, mret, M_ret, lift, put; simpl.
  assert (contains pending_references m = true) as ->
    by (apply contains_true; eauto).
  unfold getitem, delitem. rewrite Hk.
  by rewrite pending_reference_fold.
Qed.

Lemma base_sql_for_pending_references_absent
    rt self settings_dict m style (pending_references : PendingReferences) :
  managed (_meta m) = true → proxy (_meta m) = false →
  pending_references !! class_id (_meta m) = None →
  base_sql_for_pending_references rt self settings_dict m style pending_references
  = (Ok [], pending_references).
Proof.
  intros Hm Hp Hk. unfold base_sql_for_pending_references.
  rewrite managed_guard by done.
  unfold mbind, M_bind, get; simpl.
  by assert (contains pending_references m = false) as ->
    by (by apply contains_false).
Qed.

(** C5. On the base backend, for a managed, non-proxy model:
    when the model is a key of the pending references with the entries
    [refs] (foreign keys to fields of the model), the call returns one
    [ALTER TABLE ... ADD CONSTRAINT ... FOREIGN KEY] statement per entry, in
    order, and deletes the key; when the model is not a key, it returns no
    statement and leaves the dictionary as it is - so a second call on the
    drained dictionary emits nothing. *)
Theorem base_pending_references_are_drained
    rt self settings_dict m style (pending_references : PendingReferences) :
  vendor self ≠ MySQL →
  managed (_meta m) = true → proxy (_meta m) = false →
  (∀ k refs,
     pending_references !! class_id (_meta m) = Some (k, refs) →
     forallb (is_foreign_key_to m) refs = true →
     ∃ out,
       base_sql_for_pending_references rt self settings_dict m style
         pending_references
       = (Ok out, delete (class_id (_meta m)) pending_references)
       ∧ length out = length refs
       ∧ out = map (λ ref, spec_add_constraint self settings_dict m style ref
                             (spec_constraint_name rt self m ref)) refs)
  ∧ (pending_references !! class_id (_meta m) = None →
     base_sql_for_pending_references rt self settings_dict m style
       pending_references
     = (Ok [], pending_references))
  ∧ base_sql_for_pending_references rt self settings_dict m style
      (delete (class_id (_meta m)) pending_references)
    = (Ok [], delete (class_id (_meta m)) pending_references).
Proof.
  intros Hv Hm Hp. split; [|split].
  - intros k refs Hk Hall. eexists. split; [|split; [|reflexivity]].
    + by apply (base_sql_for_pending_references_spec _ _ _ _ _ _ k).
    + by rewrite length_map.
  - by apply base_sql_for_pending_references_absent.
  - apply base_sql_for_pending_references_absent; [done | done |].
    apply lookup_delete_eq.
Qed.

(** C2 (amended). For a managed, non-proxy model and the foreign keys
    [refs] that reference it: the statements of [sql_for_pending_references]
    in the run [rt1] of the creation and of [sql_remove_table_constraints]
    in the run [rt2] of the drop name, entry by entry, the same constraint,
    [<refcol>_refs_<targetcol>_<digest(refTable, table)>] truncated to the
    backend's [max_name_length], provided the two runs agree on
    [truncate_name] and their [hash] values of the tuple [(refTable, table)]
    agree in absolute value modulo 2^32 - as they do within one run. *)
Theorem constraint_name_round_trip
    rt1 rt2 self settings_dict m style (pending_references : PendingReferences)
    k refs :
  managed (_meta m) = true → proxy (_meta m) = false →
  (vendor self = MySQL → is_Some (settings_dict !! "NAME")) →
  pending_references !! class_id (_meta m) = Some (k, refs) →
  forallb (is_foreign_key_to m) refs = true →
  (∀ s n, truncate_name rt1 s n = truncate_name rt2 s n) →
  (∀ ref : Ref, ref ∈ refs →
     (Z.abs (hash rt1 [db_table (_meta ref.1); db_table (_meta m)]) `mod` 4294967296
      = Z.abs (hash rt2 [db_table (_meta ref.1); db_table (_meta m)])
        `mod` 4294967296)%Z) →
  base_sql_for_pending_references rt1 self settings_dict m style pending_references
  = (Ok (map (λ ref, spec_add_constraint self settings_dict m style ref
                       (spec_constraint_name rt1 self m ref)) refs),
     delete (class_id (_meta m)) pending_references)
  ∧ sql_remove_table_constraints rt2 self m style pending_references
    = (Ok (map (λ ref, spec_drop_constraint self style ref
                         (spec_constraint_name rt1 self m ref)) refs),
       delete (class_id (_meta m)) pending_references)
  ∧ (∀ ref : Ref, ref ∈ refs →
       spec_constraint_name rt1 self m ref = spec_constraint_name rt2 self m ref).
Proof.
  intros Hm Hp Hname Hk Hall Ht Hh.
  assert (Hsame : ∀ ref : Ref, ref ∈ refs →
            spec_constraint_name rt1 self m ref = spec_constraint_name rt2 self m ref).
  { intros ref Hin. unfold spec_constraint_name, _digest.
    by rewrite (Hh ref Hin), Ht. }
  split; [|split; [|exact Hsame]].
  - by apply (base_sql_for_pending_references_spec _ _ _ _ _ _ k).
  - unfold sql_remove_table_constraints. rewrite managed_guard by done.
    unfold mbind, M_bind, get, mret, M_ret, lift, put; simpl.
    unfold getitem, delitem. rewrite Hk.
    rewrite remove_constraint_fold by done. simpl. do 2 f_equal.
    apply map_ext_in. intros ref Hin%list_elem_of_In.
    by rewrite (Hsame ref Hin).
Qed.

(** C2 (as stated, refuted). The same model and foreign key, created in a
    run and dropped in another run whose [hash] differs by one: the
    creation names the constraint [fk_id_refs_id_5], the drop names
    [fk_id_refs_id_6]. *)
Lemma constraint_name_differs_across_runs :
  (base_sql_for_pending_references (test_runtime 0) base_creation test_settings
     SameName1 no_style test_pending).1
  = Ok [spec_add_constraint base_creation test_settings SameName1 no_style
          (SameName2, SameName2_fk) "fk_id_refs_id_5"]
  ∧ (sql_remove_table_constraints (test_runtime 1) base_creation SameName1
       no_style test_pending).1
    = Ok [spec_drop_constraint base_creation no_style
            (SameName2, SameName2_fk) "fk_id_refs_id_6"]
  ∧ spec_constraint_name (test_runtime 0) base_creation SameName1
      (SameName2, SameName2_fk)
    ≠ spec_constraint_name (test_runtime 1) base_creation SameName1
        (SameName2, SameName2_fk).
Proof.
  split; [reflexivity|]. split; [reflexivity|].
  vm_compute. discriminate.
Qed.

(** ** Inline references on the base backend *)

Lemma base_dispatch self :
  vendor self = Base ∨ vendor self = PostgreSQL →
  (∀ settings_dict f known_models style,
     sql_for_inline_foreign_key_references self settings_dict f known_models style
     = base_sql_for_inline_foreign_key_references self settings_dict f
         known_models style)
  ∧ (∀ settings_dict a b,
       qualified_name_for_ref self settings_dict a b
       = Ok (base_qualified_name_for_ref self a b)).
Proof.
  unfold sql_for_inline_foreign_key_references, qualified_name_for_ref.
  by intros [-> | ->].
Qed.

Lemma base_inline_reference self settings_dict f r known_models style :
  vendor self = Base ∨ vendor self = PostgreSQL →
  rel f = Some r →
  (known known_models (to r) = true →
   is_ok (get_field (to r) (field_name r)) = true) →
  sql_for_inline_foreign_key_references self settings_dict f known_models style
  = Ok (if known known_models (to r)
        then match get_field (to r) (field_name r) with
             | Ok target => [spec_inline_reference self style r target]
             | Raise _ => []
             end
        else [],
        negb (known known_models (to r))).
Proof.
  intros Hv Hr Hok. destruct (base_dispatch self Hv) as [Hd Hq].
  rewrite Hd. unfold base_sql_for_inline_foreign_key_references, rel_attr.
  rewrite Hr; simpl. rewrite Hq; simpl.
  destruct (known known_models (to r)); [|done].
  specialize (Hok eq_refl).
  destruct (get_field (to r) (field_name r)); [done | discriminate].
Qed.

Lemma sql_create_model_field_spec self settings_dict m style known_models out p f :
  vendor self = Base ∨ vendor self = PostgreSQL →
  inline_target_exists self known_models f = true →
  ∃ out',
    sql_create_model_field self settings_dict m style known_models (out, p) f
    = Ok (out', record_field self known_models m p f).
Proof.
  intros Hv Hwf.
  unfold sql_create_model_field, record_field, inline_target_exists in *.
  destruct (db_type (connection self) f) as [ct|]; [|eauto].
  destruct (rel f) as [r|] eqn:Hr; simpl; [|eauto].
  rewrite (base_inline_reference self settings_dict f r known_models style Hv Hr)
    by (by intros ->%Is_true_true_2%Is_true_true_1 || (intros H; by rewrite H in Hwf)).
  simpl. destruct (known known_models (to r)); simpl; eauto.
Qed.

Lemma sql_create_model_fold self settings_dict m style known_models fs : ∀ out p,
  vendor self = Base ∨ vendor self = PostgreSQL →
  forallb (inline_target_exists self known_models) fs = true →
  ∃ out',
    foldM (sql_create_model_field self settings_dict m style known_models)
      (out, p) fs
    = Ok (out', foldl (record_field self known_models m) p fs).
Proof.
  induction fs as [|f fs IH]; intros out p Hv Hall; [simpl; eauto|].
  apply andb_prop in Hall as [Hf Hall].
  destruct (sql_create_model_field_spec self settings_dict m style known_models
              out p f Hv Hf) as [out' Hstep].
  rewrite foldM_cons, Hstep. by apply IH.
Qed.

Lemma mapM_ok {A B} (f : A → result B) (l : list A) :
  forallb (λ x, is_ok (f x)) l = true → ∃ ys, mapM f l = Ok ys.
Proof.
  induction l as [|x l IH]; simpl; [eauto|].
  intros [Hx Hl]%andb_prop. destruct (f x); [|done].
  destruct (IH Hl) as [ys ->]. simpl. eauto.
Qed.

Lemma setdefault_append_lookup {A} (d : ModelDict (list A)) m x key :
  snd <$> (setdefault_append d m x !! key)
  = if decide (class_id (_meta m) = key)
    then Some (default [] (snd <$> (d !! key)) ++ [x])
    else snd <$> (d !! key).
Proof.
  unfold setdefault_append. case_decide as Hk.
  - subst key. destruct (d !! class_id (_meta m)) as [[k l]|];
      by rewrite lookup_insert_eq.
  - destruct (d !! class_id (_meta m)) as [[k l]|];
      by rewrite lookup_insert_ne.
Qed.

Lemma record_field_lookup self known_models m (p : PendingReferences) f key :
  snd <$> (record_field self known_models m p f !! key)
  = if deferred_to self known_models key f
    then Some (default [] (snd <$> (p !! key)) ++ [(m, f)])
    else snd <$> (p !! key).
Proof.
  unfold record_field, deferred_to.
  destruct (db_type (connection self) f); [|done].
  destruct (rel f) as [r|]; [|done].
  destruct (known known_models (to r)); simpl.
  - by rewrite andb_false_r.
  - rewrite andb_true_r, setdefault_append_lookup.
    case_decide; [by rewrite bool_decide_eq_true_2 | by rewrite bool_decide_eq_false_2].
Qed.

Lemma recorded_fields_lookup self known_models m fs key :
  ∀ p : PendingReferences,
  snd <$> (foldl (record_field self known_models m) p fs !! key)
  = match List.filter (deferred_to self known_models key) fs with
    | [] => snd <$> (p !! key)
    | l => Some (default [] (snd <$> (p !! key)) ++ map (pair m) l)
    end.
Proof.
  induction fs as [|f fs IH]; intros p; simpl; [done|].
  rewrite IH, record_field_lookup.
  destruct (deferred_to self known_models key f); simpl.
  - destruct (List.filter _ fs); simpl; [done|].
    by rewrite <- app_assoc.
  - done.
Qed.

Lemma unique_together_ok (m : Model) (g : Field → string) (h : list string → string)
    (groups : list (list string)) :
  forallb (forallb (λ n, is_ok (get_field m n))) groups = true →
  ∃ us, mapM (λ field_constraints,
                cols ← mapM (λ f, fld ← get_field m f; Ok (g fld))
                            field_constraints;
                Ok (h cols)) groups = Ok us.
Proof.
  intros H. apply mapM_ok.
  induction groups as [|grp groups IH]; simpl in *; [done|].
  apply andb_prop in H as [Hg Hgs]. rewrite IH by done. rewrite andb_true_r.
  destruct (mapM_ok (λ f, fld ← get_field m f; Ok (g fld)) grp) as [cols ->];
    [|done].
  clear -Hg. induction grp as [|n grp IH]; simpl in *; [done|].
  apply andb_prop in Hg as [Hn Hg]. rewrite IH by done.
  by destruct (get_field m n).
Qed.

Lemma sql_create_model_spec self settings_dict m style known_models :
  vendor self = Base ∨ vendor self = PostgreSQL →
  managed (_meta m) = true → proxy (_meta m) = false →
  well_formed_model self known_models m = true →
  ∃ out, sql_create_model self settings_dict m style known_models
         = Ok (out, foldl (record_field self known_models m) ∅ (local_fields m)).
Proof.
  intros Hv Hm Hp Hwf. unfold well_formed_model in Hwf.
  apply andb_prop in Hwf as [[Hfs Hut]%andb_prop Hauto].
  unfold sql_create_model. rewrite managed_guard by done.
  destruct (sql_create_model_fold self settings_dict m style known_models
              (local_fields m) [] ∅ Hv Hfs) as [table_output ->].
  simpl.
  destruct (unique_together_ok m
              (λ fld, SQL_FIELD style (quote_name (ops (connection self)) (column fld)))
              (λ cols, SQL_KEYWORD style "UNIQUE" +:+ " (" +:+
                       String.concat ", " cols +:+ ")")
              (unique_together (_meta m)) Hut) as [us ->].
  simpl.
  destruct (has_auto_field (_meta m)); [|simpl; eauto].
  apply bool_decide_eq_true in Hauto as [af ->].
  destruct (autoinc_sql _ _ _); simpl; eauto.
Qed.

Lemma base_inline_pending_iff self settings_dict f r known_models style :
  vendor self = Base ∨ vendor self = PostgreSQL →
  rel f = Some r →
  (∃ out, sql_for_inline_foreign_key_references self settings_dict f
            known_models style = Ok (out, true))
  ↔ known known_models (to r) = false.
Proof.
  intros Hv Hr. destruct (base_dispatch self Hv) as [Hd Hq].
  rewrite Hd. unfold base_sql_for_inline_foreign_key_references, rel_attr.
  rewrite Hr; simpl. rewrite Hq; simpl.
  destruct (known known_models (to r)).
  - split; [|done]. intros [out H].
    destruct (get_field (to r) (field_name r)); simpl in H; congruence.
  - split; eauto.
Qed.

Lemma deferred_to_spec self known_models key f :
  deferred_to self known_models key f = true
  ↔ is_Some (db_type (connection self) f)
    ∧ ∃ r, rel f = Some r ∧ class_id (_meta (to r)) = key
           ∧ known known_models (to r) = false.
Proof.
  unfold deferred_to.
  destruct (db_type (connection self) f) as [ct|].
  - destruct (rel f) as [r|].
    + rewrite andb_true_iff, bool_decide_eq_true, negb_true_iff.
      split.
      * intros [? ?]. split; [eauto|]. by exists r.
      * intros [_ (r' & [= <-] & ? & ?)]. done.
    + split; [done|]. by intros [_ (r' & ? & _)].
  - split; [done|]. by intros [[? ?] _].
Qed.

(** C7. On the base (and PostgreSQL) backend:
    the inline check on a foreign key returns [pending = False] with
    exactly one clause, [REFERENCES <target table> (<target column>)]
    followed by the backend's deferrable suffix, exactly when the target
    model is in [known_models], and [pending = True] with no clause exactly
    when it is not; and [sql_create_model] of a managed, non-proxy model
    returns a pending-reference dictionary that holds [(model, field)] under
    the key of a target exactly for the column-backed foreign keys to that
    target on which the check reported pending. *)
Theorem base_inline_reference_iff_known self settings_dict style known_models :
  vendor self = Base ∨ vendor self = PostgreSQL →
  (∀ f r,
     rel f = Some r →
     (known known_models (to r) = true →
      is_ok (get_field (to r) (field_name r)) = true) →
     ∃ out pending,
       sql_for_inline_foreign_key_references self settings_dict f known_models
         style = Ok (out, pending)
       ∧ (pending = false
          ∧ (∃ target, get_field (to r) (field_name r) = Ok target
                       ∧ out = [spec_inline_reference self style r target])
          ↔ class_id (_meta (to r)) ∈ known_models)
       ∧ (pending = false ∧ out ≠ [] ↔ class_id (_meta (to r)) ∈ known_models)
       ∧ (pending = true ∧ out = [] ↔ class_id (_meta (to r)) ∉ known_models))
  ∧ (∀ m,
       managed (_meta m) = true → proxy (_meta m) = false →
       well_formed_model self known_models m = true →
       ∃ out p,
         sql_create_model self settings_dict m style known_models = Ok (out, p)
         ∧ (∀ key, snd <$> (p !! key)
                   = match deferred_refs self known_models m key with
                     | [] => None
                     | l => Some l
                     end)
         ∧ (∀ key f,
              (m, f) ∈ default [] (snd <$> (p !! key))
              ↔ f ∈ local_fields m
                ∧ is_Some (db_type (connection self) f)
                ∧ ∃ r out', rel f = Some r ∧ class_id (_meta (to r)) = key
                    ∧ sql_for_inline_foreign_key_references self settings_dict f
                        known_models style = Ok (out', true))).
Proof.
  intros Hv. split.
  - intros f r Hr Hok.
    rewrite (base_inline_reference self settings_dict f r known_models style Hv Hr Hok).
    do 2 eexists. split; [reflexivity|].
    unfold known in *. destruct (bool_decide _) eqn:E.
    + apply bool_decide_eq_true in E. specialize (Hok eq_refl).
      destruct (get_field (to r) (field_name r)) as [target|]; [|done].
      split; [|intuition congruence].
      split; [done|]. intros _. split; [done|]. by exists target.
    + apply bool_decide_eq_false in E.
      split; [|intuition congruence].
      split; [intros [? _]; done | done].
  - intros m Hm Hp Hwf.
    destruct (sql_create_model_spec self settings_dict m style known_models
                Hv Hm Hp Hwf) as [out Hout].
    assert (Hkey : ∀ key,
      snd <$> (foldl (record_field self known_models m) ∅ (local_fields m) !! key)
      = match deferred_refs self known_models m key with
        | [] => None
        | l => Some l
        end).
    { intros key. rewrite recorded_fields_lookup, lookup_empty.
      unfold deferred_refs.
      by destruct (List.filter _ (local_fields m)). }
    do 2 eexists. split; [exact Hout|]. split; [exact Hkey|].
    intros key f. rewrite Hkey.
    transitivity ((m, f) ∈ deferred_refs self known_models m key).
    { by destruct (deferred_refs self known_models m key). }
    unfold deferred_refs.
    rewrite !list_elem_of_In, in_map_iff.
    setoid_rewrite filter_In. setoid_rewrite deferred_to_spec.
    split.
    + intros (f' & [= ->] & Hin & Hty & r & Hr & Hk & Hkn).
      split; [done|]. split; [done|].
      apply (base_inline_pending_iff self settings_dict f r known_models style Hv Hr)
        in Hkn as [out' Hc].
      by exists r, out'.
    + intros (Hin & Hty & r & out' & Hr & Hk & Hc).
      exists f. split; [done|]. split; [done|]. split; [done|].
      exists r. split; [done|]. split; [done|].
      apply (base_inline_pending_iff self settings_dict f r known_models style Hv Hr).
      by exists out'.
Qed.

(** ** Oracle: the first pass over the pending references *)

Lemma oracle_first_pass_raises
    rt self settings_dict m style (pending_references : PendingReferences) k ref refs :
  pending_references !! class_id (_meta m) = Some (k, ref :: refs) →
  oracle_sql_for_pending_references rt self settings_dict m style false
    pending_references
  = (Raise (AttributeError "connectino"), pending_references).
Proof.
  intros Hk. unfold oracle_sql_for_pending_references.
  unfold mbind at 1, M_bind, get.
  assert (contains pending_references m = true) as ->
    by (apply contains_true; eauto).
  unfold mbind, M_bind, lift, getitem. rewrite Hk.
  by destruct ref.
Qed.

(** C3 (the code at a key with one entry). The first pass on
    [{SameName1: [(SameName2, fk)]}] does not return: evaluating
    [self.connectino] raises [AttributeError], and the dictionary is left
    as it was, the entry not partitioned. *)
Example oracle_first_pass_attribute_error :
  oracle_sql_for_pending_references (test_runtime 0) oracle_creation
    test_settings SameName1 no_style false test_pending
  = (Raise (AttributeError "connectino"), test_pending).
Proof.
  apply (oracle_first_pass_raises _ _ _ _ _ _ SameName1 (SameName2, SameName2_fk) []).
  reflexivity.
Qed.

(** ** Oracle: running statements as another user *)

Lemma forM_execute_frame db sql : ∀ w,
  dicts (forM_ (execute db) sql w).2 = dicts w
  ∧ settings_ref (forM_ (execute db) sql w).2 = settings_ref w.
Proof.
  induction sql as [|q sql IH]; intros w; simpl; [done|].
  unfold mbind, M_bind, execute.
  destruct (session w) as [u|]; [|done].
  destruct (accepts db u q); [|done].
  exact (IH (mkWorld (dicts w) (settings_ref w) (Some u) (executed w ++ [(u, q)]))).
Qed.

Lemma cursor_frame db w :
  dicts (cursor db w).2 = dicts w ∧ settings_ref (cursor db w).2 = settings_ref w.
Proof.
  unfold cursor. destruct (session w); [done|].
  destruct (setting _ _); [|done]. by destruct (accepts_login db a).
Qed.

Lemma as_user_body_frame db user sql w :
  dicts ((_ ← set_setting "USER" user; _ ← cursor db; forM_ (execute db) sql) w).2
  = <[settings_ref w := <["USER" := user]> (settings_of w)]> (dicts w)
  ∧ settings_ref ((_ ← set_setting "USER" user; _ ← cursor db;
                   forM_ (execute db) sql) w).2
    = settings_ref w.
Proof.
  unfold mbind, M_bind, set_setting, modify.
  set (w1 := mkWorld _ _ _ _).
  destruct (cursor_frame db w1) as [Hd Hr].
  destruct (cursor db w1) as [[[]|e] w2]; simpl in *; [|by rewrite Hd, Hr].
  destruct (forM_execute_frame db sql w2) as [Hd' Hr'].
  by rewrite Hd', Hr', Hd, Hr.
Qed.

Lemma settings_of_mkWorld ds i o e :
  settings_of (mkWorld ds i o e) = default ∅ (ds !! i).
Proof. reflexivity. Qed.

Lemma restored_settings (ds : list Settings) (i : nat) (s s' : Settings) :
  (i < length ds)%nat →
  default ∅ ((<[i := s']> (ds ++ [s])) !! length ds) = s.
Proof.
  intros Hi. rewrite list_lookup_insert_ne by lia.
  by rewrite lookup_app_r, Nat.sub_diag by lia.
Qed.

Lemma run_sql_as_user_cons db user q sql w :
  _run_sql_as_user db user (q :: sql) w =
  let w1 := mkWorld (dicts w ++ [settings_of w]) (settings_ref w) None (executed w) in
  let rb := (_ ← set_setting "USER" user; _ ← cursor db;
             forM_ (execute db) (q :: sql)) w1 in
  (rb.1, mkWorld (dicts rb.2) (length (dicts w)) None (executed rb.2)).
Proof.
  unfold _run_sql_as_user, try_finally.
  unfold mbind at 1, M_bind at 1. unfold close at 1, modify at 1.
  unfold mbind at 1, M_bind at 1. unfold copy_settings at 1. cbv zeta.
  unfold settings_of. cbn [dicts settings_ref session executed].
  match goal with
  | |- context [match ?b ?w1 with (r, s1) => _ end] => destruct (b w1) as [r wb]
  end.
  reflexivity.
Qed.

(** C8. [_run_sql_as_user]: with no statement nothing changes; otherwise,
    whatever the server answers - the call returns or raises - the
    connection ends closed and [connection.settings_dict] holds what it held
    before the call, [USER] included. *)
Theorem run_sql_as_user_restores_connection db user sql w :
  well_formed_world w →
  (sql = [] → _run_sql_as_user db user sql w = (Ok tt, w))
  ∧ (sql ≠ [] →
     ∀ r w', _run_sql_as_user db user sql w = (r, w') →
             settings_of w' = settings_of w ∧ session w' = None).
Proof.
  intros Hwf. split; [by intros -> |].
  intros Hne r w'. destruct sql as [|q sql]; [done|].
  rewrite run_sql_as_user_cons. cbv zeta.
  set (w1 := mkWorld (dicts w ++ _) _ _ _).
  destruct (as_user_body_frame db user (q :: sql) w1) as [Hd Hr].
  set (res := (_ ← set_setting "USER" user; _ ← cursor db;
               forM_ (execute db) (q :: sql)) w1) in *.
  destruct res as [rb wb]. cbn [fst snd] in *.
  intros [= <- <-]. split; [|done].
  rewrite settings_of_mkWorld, Hd.
  by apply restored_settings.
Qed.

(** The dictionary object that was bound to [connection.settings_dict]
    before the call is not the one bound after it: it keeps the swapped
    [USER], which whoever else holds that object goes on seeing. *)
Lemma run_sql_as_user_original_object db user sql w :
  well_formed_world w → sql ≠ [] →
  ∀ r w', _run_sql_as_user db user sql w = (r, w') →
          dicts w' !! settings_ref w = Some (<["USER" := user]> (settings_of w))
          ∧ settings_ref w' ≠ settings_ref w.
Proof.
  intros Hwf Hne r w'. destruct sql as [|q sql]; [done|].
  rewrite run_sql_as_user_cons. cbv zeta.
  set (w1 := mkWorld (dicts w ++ _) _ _ _).
  destruct (as_user_body_frame db user (q :: sql) w1) as [Hd Hr].
  set (res := (_ ← set_setting "USER" user; _ ← cursor db;
               forM_ (execute db) (q :: sql)) w1) in *.
  destruct res as [rb wb]. cbn [fst snd] in *.
  intros [= <- <-]. cbn [dicts settings_ref]. unfold well_formed_world in Hwf.
  split; [|lia]. rewrite Hd. subst w1. cbn [dicts settings_ref].
  rewrite list_lookup_insert_eq by (rewrite length_app; lia).
  rewrite settings_of_mkWorld, lookup_app_l by lia. done.
Qed.

Lemma forM_execute_ok db u sql : ∀ w,
  session w = Some u →
  forallb (accepts db u) sql = true →
  forM_ (execute db) sql w
  = (Ok tt, mkWorld (dicts w) (settings_ref w) (Some u)
              (executed w ++ map (pair u) sql)).
Proof.
  induction sql as [|q sql IH]; intros w Hs Hall.
  - destruct w; simpl in *. by rewrite app_nil_r, Hs.
  - apply andb_prop in Hall as [Hq Hall].
    change (forM_ (execute db) (q :: sql) w)
      with ((_ ← execute db q; forM_ (execute db) sql) w).
    unfold mbind, M_bind, execute at 1. rewrite Hs, Hq.
    rewrite IH by done. cbn [dicts settings_ref session executed].
    by rewrite <- app_assoc.
Qed.

Lemma run_sql_as_user_ok db user sql w :
  well_formed_world w → sql ≠ [] →
  accepts_login db user = true →
  forallb (accepts db user) sql = true →
  ∃ w', _run_sql_as_user db user sql w = (Ok tt, w')
        ∧ settings_of w' = settings_of w
        ∧ session w' = None
        ∧ executed w' = executed w ++ map (pair user) sql
        ∧ well_formed_world w'.
Proof.
  intros Hwf Hne Hlogin Hall. destruct sql as [|q sql]; [done|].
  unfold well_formed_world in Hwf.
  rewrite run_sql_as_user_cons. cbv zeta.
  set (w1 := mkWorld (dicts w ++ _) _ _ _).
  assert (Hbody :
    (_ ← set_setting "USER" user; _ ← cursor db; forM_ (execute db) (q :: sql)) w1
    = (Ok tt, mkWorld (<[settings_ref w := <["USER" := user]> (settings_of w1)]>
                         (dicts w ++ [settings_of w]))
                (settings_ref w) (Some user)
                (executed w ++ map (pair user) (q :: sql)))).
  { unfold mbind at 1, M_bind at 1, set_setting, modify.
    unfold mbind at 1, M_bind at 1, cursor.
    cbn [dicts settings_ref session executed w1].
    rewrite settings_of_mkWorld.
    rewrite list_lookup_insert_eq by (rewrite length_app; lia).
    unfold setting. cbn [from_option id]. rewrite lookup_insert_eq, Hlogin.
    by rewrite forM_execute_ok with (u := user). }
  rewrite Hbody. cbn [fst snd dicts executed].
  eexists. split; [reflexivity|].
  split; [|split; [done|split; [done|]]].
  - rewrite settings_of_mkWorld. by apply restored_settings.
  - unfold well_formed_world. cbn [dicts settings_ref].
    rewrite length_insert, length_app. simpl. lia.
Qed.

(** ** Oracle: the two passes of [post_create_pending_references] *)

Lemma add_to_schema_eq self acc m refs w s :
  forced_schema self (settings_of w) (_meta m) = Ok s →
  add_to_schema self acc (m, refs) w
  = (Ok (<[s := default [] (acc !! s) ++ [(m, refs)]]> acc), w).
Proof.
  intros H. unfold add_to_schema, mbind, M_bind, current_settings, lift.
  by rewrite H.
Qed.

Lemma add_from_schema_single self acc m src f w s :
  forced_schema self (settings_of w) (_meta src) = Ok s →
  add_from_schema self acc (m, [(src, f)]) w
  = (Ok (<[s := setdefault_append (default ∅ (acc !! s)) m (src, f)]> acc), w).
Proof.
  intros H. unfold add_from_schema. cbn [foldS].
  unfold mbind, M_bind, current_settings, lift. cbn [fst]. by rewrite H.
Qed.

Lemma grant_pass_single db self sql tgt src f A B w :
  well_formed_world w →
  forced_schema self (settings_of w) (_meta src) = Ok A →
  A ≠ B →
  accepts_login db B = true →
  accepts db B (spec_grant self tgt A) = true →
  ∃ w', grant_pass db self false sql (B, [(tgt, [(src, f)])]) w
        = (Ok (sql ++ [spec_grant self tgt A]), w')
        ∧ settings_of w' = settings_of w
        ∧ session w' = None
        ∧ executed w' = executed w ++ [(B, spec_grant self tgt A)]
        ∧ well_formed_world w'.
Proof.
  intros Hwf Hsrc HAB Hlogin Hacc.
  destruct (run_sql_as_user_ok db B [spec_grant self tgt A] w Hwf)
    as (w' & Hrun & Hs & Hc & He & Hwf'); [done | done | by simpl; rewrite Hacc |].
  exists w'. split; [|done].
  unfold grant_pass. cbn [foldS].
  unfold mbind, M_bind, mret, M_ret, current_settings, lift. cbn [fst].
  rewrite Hsrc. rewrite bool_decide_eq_true_2 by done.
  unfold _grant_references, set_add. cbn [existsb app map].
  run_M. fold (spec_grant self tgt A).
  by rewrite Hrun.
Qed.

Lemma items_singleton {V} (m : Model) (v : V) :
  items ({[class_id (_meta m) := (m, v)]} : ModelDict V) = [(m, v)].
Proof. unfold items. by rewrite map_to_list_singleton. Qed.

Lemma alter_pass_single rt db self sql tgt src f A w :
  vendor self = Oracle →
  well_formed_world w →
  managed (_meta tgt) = true → proxy (_meta tgt) = false →
  is_foreign_key_to tgt (src, f) = true →
  accepts_login db A = true →
  accepts db A (spec_add_constraint self (settings_of w) tgt no_style (src, f)
                  (spec_constraint_name rt self tgt (src, f))) = true →
  ∃ w', alter_pass rt db self false sql
          (A, {[class_id (_meta tgt) := (tgt, [(src, f)])]}) w
        = (Ok (sql ++ [spec_add_constraint self (settings_of w) tgt no_style (src, f)
                         (spec_constraint_name rt self tgt (src, f))]), w')
        ∧ settings_of w' = settings_of w
        ∧ session w' = None
        ∧ executed w'
          = executed w ++ [(A, spec_add_constraint self (settings_of w) tgt no_style
                                 (src, f) (spec_constraint_name rt self tgt (src, f)))]
        ∧ well_formed_world w'.
Proof.
  intros Hv Hwf Hm Hp Hfk Hlogin Hacc.
  set (alter := spec_add_constraint _ _ _ _ _ _) in *.
  destruct (run_sql_as_user_ok db A [alter] w Hwf)
    as (w' & Hrun & Hs & Hc & He & Hwf'); [done | done | by simpl; rewrite Hacc |].
  exists w'. split; [|done].
  unfold alter_pass. rewrite items_singleton. cbn [foldS].
  unfold oracle_sql_for_pending_references, eval.
  unfold mbind, M_bind, mret, M_ret, current_settings, lift.
  rewrite (base_sql_for_pending_references_spec rt self (settings_of w) tgt
             no_style _ tgt [(src, f)]); [| done | done | | | ].
  - cbn [fst map app]. fold alter. by rewrite Hrun.
  - by rewrite Hv.
  - by rewrite lookup_singleton_eq.
  - by simpl; rewrite Hfk.
Qed.

Lemma setdefault_append_empty {A} (m : Model) (x : A) :
  setdefault_append (∅ : ModelDict (list A)) m x
  = {[class_id (_meta m) := (m, [x])]}.
Proof. unfold setdefault_append. by rewrite lookup_empty, insert_empty. Qed.

(** C1 (amended). One cross-schema reference from [src] (schema [A]) to a
    managed [tgt] (schema [B], [A] different from [B]) on a server that
    accepts the two logins and statements: [post_create_pending_references]
    sends exactly the GRANT on a session logged in as [B] and then the ALTER
    TABLE on a session logged in as [A], returns the two statements, and
    leaves the connection closed with its settings as before. A user [u0] -
    the default user of the connection, say - ran no statement exactly when
    it is neither [A] nor [B]. *)
Theorem cross_schema_reference_two_phase rt db self tgt src f A B w :
  vendor self = Oracle →
  well_formed_world w →
  managed (_meta tgt) = true → proxy (_meta tgt) = false →
  is_foreign_key_to tgt (src, f) = true →
  forced_schema self (settings_of w) (_meta src) = Ok A →
  forced_schema self (settings_of w) (_meta tgt) = Ok B →
  A ≠ B →
  accepts_login db A = true → accepts_login db B = true →
  accepts db B (spec_grant self tgt A) = true →
  accepts db A (spec_add_constraint self (settings_of w) tgt no_style (src, f)
                  (spec_constraint_name rt self tgt (src, f))) = true →
  ∃ w',
    post_create_pending_references rt db self
      {[class_id (_meta tgt) := (tgt, [(src, f)])]} false w
    = (Ok [spec_grant self tgt A;
           spec_add_constraint self (settings_of w) tgt no_style (src, f)
             (spec_constraint_name rt self tgt (src, f))], w')
    ∧ executed_between w w'
      = [(B, spec_grant self tgt A);
         (A, spec_add_constraint self (settings_of w) tgt no_style (src, f)
               (spec_constraint_name rt self tgt (src, f)))]
    ∧ settings_of w' = settings_of w
    ∧ session w' = None
    ∧ ∀ u0, avoids_user u0 (executed_between w w') ↔ Some A ≠ u0 ∧ Some B ≠ u0.
Proof.
  intros Hv Hwf Hm Hp Hfk HA HB HAB HlA HlB HaccB HaccA.
  destruct (grant_pass_single db self [] tgt src f A B w Hwf HA HAB HlB HaccB)
    as (w1 & Hgrant & Hs1 & Hc1 & He1 & Hwf1).
  rewrite <- Hs1 in HaccA, HA.
  destruct (alter_pass_single rt db self ([] ++ [spec_grant self tgt A]) tgt src f
              A w1 Hv Hwf1 Hm Hp Hfk HlA HaccA)
    as (w2 & Halter & Hs2 & Hc2 & He2 & Hwf2).
  rewrite Hs1 in Halter, He2, HaccA.
  set (alter := spec_add_constraint _ _ _ _ _ _) in *.
  assert (Hlog : executed_between w w2
                 = [(B, spec_grant self tgt A); (A, alter)]).
  { unfold executed_between. rewrite He2, He1, <- app_assoc.
    rewrite drop_app_length. reflexivity. }
  exists w2. split; [|split; [done|split; [congruence|split; [done|]]]].
  - unfold post_create_pending_references. rewrite Hv.
    unfold oracle_post_create_pending_references. rewrite items_singleton.
    cbn [foldS]. run_M.
    rewrite (add_to_schema_eq self ∅ tgt [(src, f)] w B HB).
    rewrite lookup_empty. cbn [from_option id app].
    rewrite insert_empty, map_to_list_singleton. cbn [foldS].
    run_M. rewrite Hgrant.
    rewrite (add_from_schema_single self ∅ tgt src f w1 A HA).
    rewrite lookup_empty. cbn [from_option id].
    rewrite setdefault_append_empty, insert_empty, map_to_list_singleton.
    cbn [foldS]. run_M.
    by rewrite Halter.
  - intros u0. rewrite Hlog. unfold avoids_user. split.
    + intros H. split.
      * apply (H (A, alter)). set_solver.
      * apply (H (B, spec_grant self tgt A)). set_solver.
    + intros [? ?] x Hx.
      apply list_elem_of_In in Hx as [<- | [<- | []]]; done.
Qed.

(** C1 (as stated, refuted). [SameName2] in [schema1] references
    [SameName1], which has no schema of its own and so resolves to the
    connection's user [django]: the GRANT of pass 1 runs on a session logged
    in as [django], the default user of the connection. *)
Lemma default_schema_grant_runs_as_default_user :
  forced_schema oracle_creation (settings_of test_world) (_meta SameName2)
  = Ok "schema1"
  ∧ forced_schema oracle_creation (settings_of test_world) (_meta SameName1)
    = Ok "django"
  ∧ settings_of test_world !! "USER" = Some "django"
  ∧ ¬ avoids_user (settings_of test_world !! "USER")
        (executed_between test_world
           (post_create_pending_references (test_runtime 0) permissive
              oracle_creation test_pending false test_world).2).
Proof.
  split; [reflexivity|]. split; [reflexivity|]. split; [reflexivity|].
  assert (Hlog :
    (executed_between test_world
       (post_create_pending_references (test_runtime 0) permissive
          oracle_creation test_pending false test_world).2).*1
    = ["django"; "schema1"]) by (vm_compute; reflexivity).
  intros H.
  destruct (executed_between _ _) as [|[u q] log]; [done|].
  injection Hlog as -> _.
  apply (H ("django", q)); [set_solver | reflexivity].
Qed.

(** ** The digest and the interpreter's hash *)

Lemma hex_inj a b : (0 ≤ a)%Z → (0 ≤ b)%Z → hex a = hex b → a = b.
Proof.
  intros Ha Hb H. unfold hex in H.
  assert (Hnil : ∀ n, N.to_hex_uint n ≠ Hexadecimal.Nil).
  { intros [|p]; [discriminate|]. apply HexadecimalPos.Unsigned.to_uint_nonnil. }
  assert (Hu : N.to_hex_uint (Z.to_N a) = N.to_hex_uint (Z.to_N b)).
  { apply (f_equal NilZero.uint_of_string) in H.
    rewrite !NilZero.usu in H by apply Hnil. congruence. }
  apply HexadecimalN.Unsigned.to_uint_inj in Hu. lia.
Qed.

Lemma digest_eq_iff rt1 rt2 args :
  _digest rt1 args = _digest rt2 args
  ↔ (Z.abs (hash rt1 args) `mod` 4294967296
     = Z.abs (hash rt2 args) `mod` 4294967296)%Z.
Proof.
  unfold _digest. split; [|by intros ->].
  apply hex_inj; apply Z.mod_pos_bound; lia.
Qed.

(** C4 (amended). The digest is the hexadecimal text of
    [abs(hash(args)) mod 2^32]: two interpreter runs give the same digest for
    an argument tuple exactly when their [hash] values of it agree in
    absolute value modulo 2^32; and runs that agree so (and on
    [truncate_name]) generate the same index names and the same
    ALTER TABLE / CREATE INDEX statements from the same models, connection
    and settings. *)
Theorem generated_sql_is_determined_up_to_hash rt1 rt2 :
  (∀ s n, truncate_name rt1 s n = truncate_name rt2 s n) →
  (∀ args, (Z.abs (hash rt1 args) `mod` 4294967296
            = Z.abs (hash rt2 args) `mod` 4294967296)%Z) →
  (∀ rt rt' args,
     _digest rt args = _digest rt' args
     ↔ (Z.abs (hash rt args) `mod` 4294967296
        = Z.abs (hash rt' args) `mod` 4294967296)%Z)
  ∧ (∀ args, _digest rt1 args = _digest rt2 args)
  ∧ (∀ self m col,
       qualified_index_name rt1 self m col = qualified_index_name rt2 self m col)
  ∧ (∀ self m style,
       sql_indexes_for_model rt1 self m style = sql_indexes_for_model rt2 self m style)
  ∧ (∀ self settings_dict m style (p : PendingReferences),
       base_sql_for_pending_references rt1 self settings_dict m style p
       = base_sql_for_pending_references rt2 self settings_dict m style p)
  ∧ (∀ self m style (p : PendingReferences),
       sql_remove_table_constraints rt1 self m style p
       = sql_remove_table_constraints rt2 self m style p).
Proof.
  intros Ht Hh.
  assert (Hd : ∀ args, _digest rt1 args = _digest rt2 args)
    by (intros args; unfold _digest; by rewrite Hh).
  assert (Hix : ∀ self m col,
            qualified_index_name rt1 self m col = qualified_index_name rt2 self m col).
  { intros self m col.
    unfold qualified_index_name, mysql_qualified_index_name,
      base_qualified_index_name.
    destruct (vendor self); rewrite ?Hd, ?Ht; try done.
    destruct (truthy _); [|by simpl; rewrite Ht].
    destruct (max_name_length (ops (connection self))) as [n|]; [|done].
    destruct (convert_schema (connection self) _) as [s|]; [|done].
    simpl. by rewrite !Ht. }
  split; [apply digest_eq_iff|].
  split; [done|]. split; [done|]. split; [|split].
  - intros self m style. unfold sql_indexes_for_model.
    destruct (negb _ || _); [done|]. apply foldM_ext.
    intros out f. unfold sql_indexes_for_field. by rewrite Hix.
  - intros self settings_dict m style p. unfold base_sql_for_pending_references.
    destruct (negb _ || _); [done|].
    unfold mbind, M_bind, get. destruct (contains p m); [|done].
    unfold lift. destruct (getitem p m) as [refs|]; [|done].
    rewrite (foldM_ext (pending_reference_sql rt1 self settings_dict m style)
               (pending_reference_sql rt2 self settings_dict m style)); [done|].
    intros out [rel_class f]. unfold pending_reference_sql.
    destruct (qualified_name_for_ref _ _ _ _); simpl; [|done].
    destruct (rel_attr f _) as [r|]; simpl; [|done].
    destruct (get_field m (field_name r)); simpl; [|done].
    by rewrite Hd, Ht.
  - intros self m style p. unfold sql_remove_table_constraints.
    destruct (negb _ || _); [done|].
    unfold mbind, M_bind, get, lift. destruct (getitem p m) as [refs|]; [|done].
    rewrite (foldM_ext (remove_constraint_sql rt1 self m style)
               (remove_constraint_sql rt2 self m style)); [done|].
    intros out [rel_class f]. unfold remove_constraint_sql.
    destruct (rel_attr f _) as [r|]; simpl; [|done].
    destruct (get_field m (field_name r)); simpl; [|done].
    by rewrite Hd, Ht.
Qed.

(** C4 (as stated, refuted). The same models, connection and settings in two
    interpreter runs whose [hash] differs by one: the digest of
    [("sn", "sn")] is [5] in one run and [6] in the other, and so the
    ALTER TABLE statements differ. *)
Lemma digest_varies_with_the_hash_of_the_run :
  _digest (test_runtime 0) ["sn"; "sn"] = "5"
  ∧ _digest (test_runtime 1) ["sn"; "sn"] = "6"
  ∧ (base_sql_for_pending_references (test_runtime 0) base_creation test_settings
       SameName1 no_style test_pending).1
    ≠ (base_sql_for_pending_references (test_runtime 1) base_creation test_settings
         SameName1 no_style test_pending).1.
Proof.
  split; [reflexivity|]. split; [reflexivity|].
  vm_compute. discriminate.
Qed.

(** * The theorems at the concrete schema *)

Lemma cross_schema_reference_two_phase_witness :
  (vendor oracle_creation = Oracle
   ∧ well_formed_world test_world
   ∧ managed (_meta SameName1) = true ∧ proxy (_meta SameName1) = false
   ∧ is_foreign_key_to SameName1 (SameName2, SameName2_fk) = true
   ∧ forced_schema oracle_creation (settings_of test_world) (_meta SameName2)
     = Ok "schema1"
   ∧ forced_schema oracle_creation (settings_of test_world) (_meta SameName1)
     = Ok "django"
   ∧ "schema1" ≠ "django")
  ∧ ∃ w',
      post_create_pending_references (test_runtime 0) permissive oracle_creation
        {[class_id (_meta SameName1) := (SameName1, [(SameName2, SameName2_fk)])]}
        false test_world
      = (Ok [spec_grant oracle_creation SameName1 "schema1";
             spec_add_constraint oracle_creation (settings_of test_world)
               SameName1 no_style (SameName2, SameName2_fk)
               (spec_constraint_name (test_runtime 0) oracle_creation SameName1
                  (SameName2, SameName2_fk))], w')
      ∧ executed_between test_world w'
        = [("django", spec_grant oracle_creation SameName1 "schema1");
           ("schema1",
            spec_add_constraint oracle_creation (settings_of test_world)
              SameName1 no_style (SameName2, SameName2_fk)
              (spec_constraint_name (test_runtime 0) oracle_creation SameName1
                 (SameName2, SameName2_fk)))]
      ∧ settings_of w' = settings_of test_world
      ∧ session w' = None
      ∧ ∀ u0, avoids_user u0 (executed_between test_world w')
              ↔ Some "schema1" ≠ u0 ∧ Some "django" ≠ u0.
Proof.
  split.
  - repeat split; try reflexivity; [unfold well_formed_world; simpl; lia | discriminate].
  - apply (cross_schema_reference_two_phase (test_runtime 0) permissive
             oracle_creation SameName1 SameName2 SameName2_fk "schema1" "django"
             test_world);
      try reflexivity; [unfold well_formed_world; simpl; lia | discriminate].
Defined.

Lemma base_pending_references_are_drained_witness :
  (vendor base_creation ≠ MySQL
   ∧ managed (_meta SameName1) = true ∧ proxy (_meta SameName1) = false)
  ∧ (∀ k refs,
       test_pending !! class_id (_meta SameName1) = Some (k, refs) →
       forallb (is_foreign_key_to SameName1) refs = true →
       ∃ out,
         base_sql_for_pending_references (test_runtime 0) base_creation
           test_settings SameName1 no_style test_pending
         = (Ok out, delete (class_id (_meta SameName1)) test_pending)
         ∧ length out = length refs
         ∧ out = map (λ ref, spec_add_constraint base_creation test_settings
                               SameName1 no_style ref
                               (spec_constraint_name (test_runtime 0) base_creation
                                  SameName1 ref)) refs)
  ∧ (test_pending !! class_id (_meta SameName1) = None →
     base_sql_for_pending_references (test_runtime 0) base_creation test_settings
       SameName1 no_style test_pending
     = (Ok [], test_pending))
  ∧ base_sql_for_pending_references (test_runtime 0) base_creation test_settings
      SameName1 no_style (delete (class_id (_meta SameName1)) test_pending)
    = (Ok [], delete (class_id (_meta SameName1)) test_pending).
Proof.
  split.
  - repeat split; try reflexivity. discriminate.
  - apply (base_pending_references_are_drained (test_runtime 0) base_creation
             test_settings SameName1 no_style test_pending);
      try reflexivity. discriminate.
Defined.

Lemma base_inline_reference_iff_known_witness :
  ((vendor base_creation = Base ∨ vendor base_creation = PostgreSQL)
   ∧ rel SameName2_fk = Some (mkRel SameName1 "id")
   ∧ (known {["dbschemas.SameName1"]} SameName1 = true →
      is_ok (get_field SameName1 "id") = true)
   ∧ managed (_meta SameName2) = true ∧ proxy (_meta SameName2) = false
   ∧ well_formed_model base_creation {["dbschemas.SameName1"]} SameName2 = true
   ∧ well_formed_model base_creation ∅ SameName2 = true)
  ∧ sql_for_inline_foreign_key_references base_creation test_settings
      SameName2_fk {["dbschemas.SameName1"]} no_style
    = Ok ([spec_inline_reference base_creation no_style (mkRel SameName1 "id")
             (id_field SameName1_meta)], false)
  ∧ sql_for_inline_foreign_key_references base_creation test_settings
      SameName2_fk ∅ no_style
    = Ok ([], true)
  ∧ (∃ out p,
       sql_create_model base_creation test_settings SameName2 no_style
         {["dbschemas.SameName1"]} = Ok (out, p)
       ∧ snd <$> (p !! class_id (_meta SameName1)) = None)
  ∧ (∃ out p,
       sql_create_model base_creation test_settings SameName2 no_style ∅
       = Ok (out, p)
       ∧ snd <$> (p !! class_id (_meta SameName1))
         = Some [(SameName2, SameName2_fk)]).
Proof.
  split; [split; [left; reflexivity | repeat split]|].
  destruct (base_inline_reference_iff_known base_creation test_settings no_style
              {["dbschemas.SameName1"]})
    as [Hinline Hcreate]; [left; reflexivity|].
  destruct (base_inline_reference_iff_known base_creation test_settings no_style ∅)
    as [Hinline0 Hcreate0]; [left; reflexivity|].
  split; [|split; [|split]].
  - destruct (Hinline SameName2_fk (mkRel SameName1 "id"))
      as (out & pending & Hcall & Hknown & _ & _); [reflexivity | reflexivity |].
    rewrite Hcall.
    destruct Hknown as [_ Hk].
    destruct Hk as [Hp (target & Ht & Hout)]; [vm_compute; reflexivity|].
    injection Ht as <-. by rewrite Hp, Hout.
  - destruct (Hinline0 SameName2_fk (mkRel SameName1 "id"))
      as (out & pending & Hcall & _ & _ & Hunknown);
      [reflexivity | intros H; vm_compute in H; discriminate H |].
    rewrite Hcall.
    destruct Hunknown as [_ Hu].
    destruct Hu as [Hp Hout]; [apply not_elem_of_empty|].
    by rewrite Hp, Hout.
  - destruct (Hcreate SameName2) as (out & p & Hc & Hkey & _);
      [reflexivity | reflexivity | reflexivity |].
    exists out, p. split; [exact Hc|].
    rewrite Hkey. reflexivity.
  - destruct (Hcreate0 SameName2) as (out & p & Hc & Hkey & _);
      [reflexivity | reflexivity | reflexivity |].
    exists out, p. split; [exact Hc|].
    rewrite Hkey. reflexivity.
Defined.

Lemma run_sql_as_user_restores_connection_witness :
  well_formed_world test_world
  ∧ (["SELECT 1 FROM DUAL"] = [] →
     _run_sql_as_user rejecting "schema1" ["SELECT 1 FROM DUAL"] test_world
     = (Ok tt, test_world))
  ∧ (["SELECT 1 FROM DUAL"] ≠ [] →
     ∀ r w',
       _run_sql_as_user rejecting "schema1" ["SELECT 1 FROM DUAL"] test_world
       = (r, w') →
       settings_of w' = settings_of test_world ∧ session w' = None).
Proof.
  split; [unfold well_formed_world; simpl; lia|].
  apply (run_sql_as_user_restores_connection rejecting "schema1"
           ["SELECT 1 FROM DUAL"] test_world).
  unfold well_formed_world; simpl; lia.
Defined.

(** The two exits of [_run_sql_as_user]: the server accepts the statement,
    or rejects it and [DatabaseError] propagates after the [finally] block;
    the settings read [USER = django] after both. *)
Example run_sql_as_user_both_exits :
  (_run_sql_as_user permissive "schema1" ["SELECT 1 FROM DUAL"] test_world).1
  = Ok tt
  ∧ (_run_sql_as_user rejecting "schema1" ["SELECT 1 FROM DUAL"] test_world).1
    = Raise (DatabaseError "SELECT 1 FROM DUAL")
  ∧ settings_of (_run_sql_as_user permissive "schema1" ["SELECT 1 FROM DUAL"]
                   test_world).2 !! "USER" = Some "django"
  ∧ settings_of (_run_sql_as_user rejecting "schema1" ["SELECT 1 FROM DUAL"]
                   test_world).2 !! "USER" = Some "django"
  ∧ executed (_run_sql_as_user rejecting "schema1" ["SELECT 1 FROM DUAL"]
                test_world).2 = [("schema1", "SELECT 1 FROM DUAL")].
Proof. repeat split; vm_compute; reflexivity. Qed.

Lemma Zabs_mod_shift (n : nat) :
  (Z.abs (0 + Z.of_nat n) `mod` 4294967296
   = Z.abs (4294967296 + Z.of_nat n) `mod` 4294967296)%Z.
Proof.
  rewrite !Z.abs_eq by lia.
  replace (4294967296 + Z.of_nat n)%Z with (0 + Z.of_nat n + 1 * 4294967296)%Z
    by lia.
  by rewrite Z.mod_add.
Qed.

Lemma constraint_name_round_trip_witness :
  (managed (_meta SameName1) = true ∧ proxy (_meta SameName1) = false
   ∧ (vendor mysql_creation = MySQL → is_Some (test_settings !! "NAME"))
   ∧ test_pending !! class_id (_meta SameName1)
     = Some (SameName1, [(SameName2, SameName2_fk)])
   ∧ forallb (is_foreign_key_to SameName1) [(SameName2, SameName2_fk)] = true
   ∧ (∀ s n, truncate_name (test_runtime 0) s n
             = truncate_name (test_runtime 4294967296) s n)
   ∧ (∀ ref : Ref, ref ∈ [(SameName2, SameName2_fk)] →
        (Z.abs (hash (test_runtime 0)
                  [db_table (_meta ref.1); db_table (_meta SameName1)])
           `mod` 4294967296
         = Z.abs (hash (test_runtime 4294967296)
                    [db_table (_meta ref.1); db_table (_meta SameName1)])
             `mod` 4294967296)%Z))
  ∧ base_sql_for_pending_references (test_runtime 0) mysql_creation test_settings
      SameName1 no_style test_pending
    = (Ok (map (λ ref, spec_add_constraint mysql_creation test_settings SameName1
                         no_style ref
                         (spec_constraint_name (test_runtime 0) mysql_creation
                            SameName1 ref))
             [(SameName2, SameName2_fk)]),
       delete (class_id (_meta SameName1)) test_pending)
  ∧ sql_remove_table_constraints (test_runtime 4294967296) mysql_creation
      SameName1 no_style test_pending
    = (Ok (map (λ ref, spec_drop_constraint mysql_creation no_style ref
                         (spec_constraint_name (test_runtime 0) mysql_creation
                            SameName1 ref))
             [(SameName2, SameName2_fk)]),
       delete (class_id (_meta SameName1)) test_pending)
  ∧ (∀ ref : Ref, ref ∈ [(SameName2, SameName2_fk)] →
       spec_constraint_name (test_runtime 0) mysql_creation SameName1 ref
       = spec_constraint_name (test_runtime 4294967296) mysql_creation
           SameName1 ref).
Proof.
  assert (Hname : vendor mysql_creation = MySQL → is_Some (test_settings !! "NAME"))
    by (intros _; exists "xe"; reflexivity).
  assert (Ht : ∀ s n, truncate_name (test_runtime 0) s n
                      = truncate_name (test_runtime 4294967296) s n)
    by reflexivity.
  assert (Hh : ∀ ref : Ref, ref ∈ [(SameName2, SameName2_fk)] →
            (Z.abs (hash (test_runtime 0)
                      [db_table (_meta ref.1); db_table (_meta SameName1)])
               `mod` 4294967296
             = Z.abs (hash (test_runtime 4294967296)
                        [db_table (_meta ref.1); db_table (_meta SameName1)])
                 `mod` 4294967296)%Z)
    by (intros ref _; apply Zabs_mod_shift).
  split.
  - repeat split; try reflexivity; [exact Hname | exact Hh].
  - apply (constraint_name_round_trip (test_runtime 0) (test_runtime 4294967296)
             mysql_creation test_settings SameName1 no_style test_pending
             SameName1 [(SameName2, SameName2_fk)]);
      try reflexivity; [exact Hname | exact Hh].
Defined.

Lemma generated_sql_is_determined_up_to_hash_witness :
  ((∀ s n, truncate_name (test_runtime 0) s n
           = truncate_name (test_runtime 4294967296) s n)
   ∧ (∀ args, (Z.abs (hash (test_runtime 0) args) `mod` 4294967296
               = Z.abs (hash (test_runtime 4294967296) args) `mod` 4294967296)%Z))
  ∧ _digest (test_runtime 0) ["sn"; "sn"]
    = _digest (test_runtime 4294967296) ["sn"; "sn"]
  ∧ base_sql_for_pending_references (test_runtime 0) base_creation test_settings
      SameName1 no_style test_pending
    = base_sql_for_pending_references (test_runtime 4294967296) base_creation
        test_settings SameName1 no_style test_pending.
Proof.
  assert (Ht : ∀ s n, truncate_name (test_runtime 0) s n
                      = truncate_name (test_runtime 4294967296) s n)
    by reflexivity.
  assert (Hh : ∀ args,
            (Z.abs (hash (test_runtime 0) args) `mod` 4294967296
             = Z.abs (hash (test_runtime 4294967296) args) `mod` 4294967296)%Z)
    by (intros args; apply Zabs_mod_shift).
  split; [by split|].
  destruct (generated_sql_is_determined_up_to_hash (test_runtime 0)
              (test_runtime 4294967296) Ht Hh) as (_ & Hd & _ & _ & Hp & _).
  split; [apply Hd | apply Hp].
Defined.

(** The target of the reference has to be managed: for the unmanaged
    [Legacy] the GRANT of pass 1 is sent, and pass 2 drops the reference in
    the guard of [sql_for_pending_references] and sends nothing. *)
Example unmanaged_target_is_granted_but_not_altered :
  (post_create_pending_references (test_runtime 0) permissive oracle_creation
     (setdefault_append ∅ Legacy (SameName2, Legacy_fk)) false test_world).1
  = Ok [spec_grant oracle_creation Legacy "schema1"]
  ∧ executed (post_create_pending_references (test_runtime 0) permissive
                oracle_creation (setdefault_append ∅ Legacy (SameName2, Legacy_fk))
                false test_world).2
    = [("django", spec_grant oracle_creation Legacy "schema1")].
Proof. split; vm_compute; reflexivity. Qed.

(** * Further properties *)

(** ** Name conversion *)

Lemma truthy_is_Some (o : option string) : truthy o = true → is_Some o.
Proof. destruct o; [eauto | done]. Qed.

Lemma oracle_forced_conversion self settings_dict u qname :
  settings_dict !! "USER" = Some u →
  ∃ q', oracle_qname_converter (connection self) settings_dict qname true = Ok q'
        ∧ db_format q' = true ∧ is_Some (schema q')
        ∧ table q' = table qname.
Proof.
  intros Hu. unfold oracle_qname_converter, setting. rewrite Hu.
  rewrite orb_false_r, andb_true_r.
  destruct (db_format qname) eqn:Hf; simpl.
  - destruct (truthy (schema qname)) eqn:Ht; simpl.
    + eexists. split; [reflexivity|]. by split; [|split; [apply truthy_is_Some|]].
    + destruct (truthy (convert_schema _ _)) eqn:Hc; simpl;
        eexists; (split; [reflexivity|]); simpl;
        (split; [done|split; [|done]]); [by apply truthy_is_Some | eauto].
  - destruct (truthy (convert_schema _ _)) eqn:Hc; simpl;
      eexists; (split; [reflexivity|]); simpl;
      (split; [done|split; [|done]]); [by apply truthy_is_Some | eauto].
Qed.

(** X1. On Oracle, with [USER] in the settings, a conversion with
    [force_schema] returns a name in database format that carries a schema
    and keeps the table; so the schema read off a forced conversion is a
    string, for every model. *)
Theorem oracle_forced_conversion_has_schema self settings_dict u qname opts :
  settings_dict !! "USER" = Some u →
  (∃ q', oracle_qname_converter (connection self) settings_dict qname true = Ok q'
         ∧ db_format q' = true ∧ is_Some (schema q')
         ∧ table q' = table qname)
  ∧ (∃ s, forced_schema self settings_dict opts = Ok s).
Proof.
  intros Hu. split; [by eapply oracle_forced_conversion|].
  unfold forced_schema.
  destruct (oracle_forced_conversion self settings_dict u
              (qualified_name (connection self) opts) Hu)
    as (q' & -> & _ & [s Hs] & _).
  simpl. rewrite Hs. eauto.
Qed.

(** X2. A conversion without [force_schema] never raises, on Oracle and on
    MySQL alike (the two agree), returns a name in database format, and is
    idempotent: converting the result again returns it unchanged. *)
Theorem unforced_conversion_is_idempotent conn settings_dict qname :
  ∃ q', oracle_qname_converter conn settings_dict qname false = Ok q'
        ∧ mysql_qname_converter conn settings_dict qname false = Ok q'
        ∧ db_format q' = true
        ∧ table q' = table qname
        ∧ oracle_qname_converter conn settings_dict q' false = Ok q'
        ∧ mysql_qname_converter conn settings_dict q' false = Ok q'.
Proof.
  unfold oracle_qname_converter, mysql_qname_converter.
  rewrite !andb_false_r, !orb_true_r, !andb_true_r.
  destruct (db_format qname) eqn:Hf; simpl.
  - exists qname. by rewrite Hf, !orb_true_r.
  - eexists. split; [reflexivity|]. split; [reflexivity|]. simpl.
    by rewrite !orb_true_r.
Qed.

(** X3. The PostgreSQL conversion does not depend on [force_schema], is
    idempotent and returns a name in database format; even when asked to
    force a schema it keeps the schema of a name in database format, and
    for a raw name it takes the name's schema if truthy and the
    connection's otherwise, which may be none. *)
Theorem postgresql_conversion_cannot_force conn qname force_schema force_schema' :
  postgresql_qname_converter conn qname force_schema
  = postgresql_qname_converter conn qname force_schema'
  ∧ postgresql_qname_converter conn
      (postgresql_qname_converter conn qname force_schema) force_schema'
    = postgresql_qname_converter conn qname force_schema
  ∧ db_format (postgresql_qname_converter conn qname force_schema) = true
  ∧ schema (postgresql_qname_converter conn qname true)
    = if db_format qname || truthy (schema qname) then schema qname
      else connection_schema conn.
Proof.
  unfold postgresql_qname_converter, py_or.
  destruct (db_format qname) eqn:Hf; simpl; rewrite ?Hf; by repeat split.
Qed.

(** X4. [needs_separate_conn] answers [False] exactly when the two names
    both resolve to the default schema of the connection: a reference
    between two tables of one and the same schema still needs a separate
    connection when that schema is not the default one. *)
Theorem needs_separate_conn_iff_not_both_default
    self settings_dict from_qname to_qname u :
  settings_dict !! "USER" = Some u →
  ∃ d f t b,
    oracle_qname_converter (connection self) settings_dict default_qname true = Ok d
    ∧ oracle_qname_converter (connection self) settings_dict from_qname true = Ok f
    ∧ oracle_qname_converter (connection self) settings_dict to_qname true = Ok t
    ∧ needs_separate_conn self settings_dict from_qname to_qname = Ok b
    ∧ (b = false ↔ schema f = schema d ∧ schema t = schema d)
    ∧ (schema f ≠ schema d → b = true).
Proof.
  intros Hu.
  destruct (oracle_forced_conversion self settings_dict u default_qname Hu)
    as (d & Hd & _).
  destruct (oracle_forced_conversion self settings_dict u from_qname Hu)
    as (f & Hf & _).
  destruct (oracle_forced_conversion self settings_dict u to_qname Hu)
    as (t & Ht & _).
  exists d, f, t. eexists. split; [done|]. split; [done|]. split; [done|].
  unfold needs_separate_conn. fold default_qname. rewrite Hd, Hf, Ht. simpl.
  split; [reflexivity|]. rewrite orb_false_iff, !bool_decide_eq_false.
  split.
  - split.
    + intros [H1 H2]. apply dec_stable in H1. apply dec_stable in H2.
      split; congruence.
    + intros [H1 H2]. split; intros H3; apply H3; congruence.
  - intros Hne. apply orb_true_iff. left. apply bool_decide_eq_true. congruence.
Qed.

(** X5. On Oracle a foreign key is created inline only between two tables
    of the connection's default schema: when the owner's or the target's
    schema differs from the default one, the reference is reported pending
    with no clause, whatever [known_models] holds; when both are the default
    schema, the answer is the one of the base class. *)
Theorem oracle_inline_reference_needs_default_schema
    self settings_dict f r u d fq tq known_models style :
  vendor self = Oracle →
  settings_dict !! "USER" = Some u →
  rel f = Some r →
  oracle_qname_converter (connection self) settings_dict default_qname true = Ok d →
  oracle_qname_converter (connection self) settings_dict
    (qualified_name (connection self) (model f)) true = Ok fq →
  oracle_qname_converter (connection self) settings_dict
    (qualified_name (connection self) (_meta (to r))) true = Ok tq →
  sql_for_inline_foreign_key_references self settings_dict f known_models style
  = if bool_decide (schema fq = schema d ∧ schema tq = schema d)
    then base_sql_for_inline_foreign_key_references self settings_dict f
           known_models style
    else Ok ([], true).
Proof.
  intros Hv Hu Hr Hd Hf Ht.
  unfold sql_for_inline_foreign_key_references. rewrite Hv.
  unfold oracle_sql_for_inline_foreign_key_references, rel_attr. rewrite Hr. simpl.
  unfold needs_separate_conn. fold default_qname. rewrite Hd, Hf, Ht. simpl.
  destruct (decide (schema fq = schema d ∧ schema tq = schema d)) as [Hs|Hs];
    [rewrite (bool_decide_eq_true_2 _ Hs) | rewrite (bool_decide_eq_false_2 _ Hs)].
  - destruct Hs as [H1 H2].
    rewrite (bool_decide_eq_false_2 (schema d ≠ schema fq)) by (intros H; by apply H).
    rewrite (bool_decide_eq_false_2 (schema tq ≠ schema fq))
      by (intros H; apply H; congruence).
    done.
  - destruct (bool_decide (schema d ≠ schema fq)
              || bool_decide (schema tq ≠ schema fq)) eqn:Hb; [done|].
    apply orb_false_iff in Hb as [H1 H2].
    apply bool_decide_eq_false, dec_stable in H1.
    apply bool_decide_eq_false, dec_stable in H2.
    destruct Hs. split; congruence.
Qed.

(** X6. With no entry to handle for a model (the model is not a key of the
    pending references, or its list is empty) both passes of the Oracle
    [sql_for_pending_references] return no statement; the first pass leaves
    the dictionary as it is, an empty list included, whereas the second pass
    (the base method) removes the key. *)
Theorem oracle_passes_without_entries
    rt self settings_dict m style (pending_references : PendingReferences) :
  default [] (snd <$> pending_references !! class_id (_meta m)) = [] →
  oracle_sql_for_pending_references rt self settings_dict m style false
    pending_references
  = (Ok [], pending_references)
  ∧ oracle_sql_for_pending_references rt self settings_dict m style true
      pending_references
    = (Ok [], delete (class_id (_meta m)) pending_references).
Proof.
  intros He. unfold oracle_sql_for_pending_references,
    base_sql_for_pending_references, contains, getitem, delitem.
  destruct (pending_references !! class_id (_meta m)) as [[k refs]|] eqn:Hk;
    simpl in He.
  - subst refs.
    assert (Hc : bool_decide (is_Some (pending_references !! class_id (_meta m)))
                 = true) by (apply bool_decide_eq_true_2; rewrite Hk; eauto).
    split.
    + run_M. unfold get, lift. simpl. by rewrite Hc, Hk.
    + destruct (negb (managed (_meta m)) || proxy (_meta m));
        run_M; unfold get, lift, put; simpl; by rewrite Hc, Hk.
  - assert (Hc : bool_decide (is_Some (pending_references !! class_id (_meta m)))
                 = false)
      by (apply bool_decide_eq_false_2; rewrite Hk; by intros [? ?]).
    rewrite delete_id by done.
    split.
    + run_M. unfold get. simpl. by rewrite Hc.
    + destruct (negb (managed (_meta m)) || proxy (_meta m));
        run_M; unfold get; simpl; by rewrite Hc.
Qed.

(** X7. On MySQL the name of a referenced table is built from a name in
    database format that always carries a schema (the settings' [NAME] when
    the conversion yields none) and keeps the table; it does not depend on
    the referencing table. *)
Theorem mysql_reference_name_is_schema_qualified
    self settings_dict from_table from_table' ref_table n :
  settings_dict !! "NAME" = Some n →
  (∃ q, mysql_qualified_name_for_ref self settings_dict from_table ref_table
        = Ok (compose_qualified_name (ops (connection self)) q)
        ∧ is_Some (schema q) ∧ db_format q = true ∧ table q = table ref_table
        ∧ (schema q = Some n ∨ schema q = schema ref_table
           ∨ schema q = convert_schema (connection self) (schema ref_table)))
  ∧ mysql_qualified_name_for_ref self settings_dict from_table ref_table
    = mysql_qualified_name_for_ref self settings_dict from_table' ref_table.
Proof.
  intros Hn.
  unfold mysql_qualified_name_for_ref, mysql_qname_converter, setting,
    base_qualified_name_for_ref.
  rewrite !andb_false_r, !orb_true_r, !andb_true_r, Hn.
  split.
  - destruct (db_format from_table); simpl;
      (destruct (db_format ref_table) eqn:Hf; simpl;
       [destruct (schema ref_table) eqn:Hs
       |destruct (convert_schema (connection self) (schema ref_table)) eqn:Hs];
       simpl; eexists; (split; [reflexivity|]); simpl; rewrite ?Hs, ?Hf; eauto 10).
  - by destruct (db_format from_table), (db_format from_table').
Qed.

(** X8. Called on a managed, non-proxy model that is not a key of the
    references to delete, [sql_remove_table_constraints] raises [KeyError]
    and leaves the dictionary as it is; [sql_destroy_model] checks the key
    first and never raises on that account. *)
Theorem remove_table_constraints_needs_entry
    rt self m style (references_to_delete : PendingReferences) :
  managed (_meta m) = true → proxy (_meta m) = false →
  references_to_delete !! class_id (_meta m) = None →
  sql_remove_table_constraints rt self m style references_to_delete
  = (Raise (KeyError (class_id (_meta m))), references_to_delete)
  ∧ sql_destroy_model rt self m style references_to_delete
    = (Ok (spec_drop_table self m style :: spec_drop_sequence self m),
       references_to_delete).
Proof.
  intros Hm Hp Hk.
  unfold sql_destroy_model, sql_remove_table_constraints.
  rewrite managed_guard by done.
  assert (Hc : contains references_to_delete m = false) by (by apply contains_false).
  split.
  - run_M. unfold get, lift, getitem. simpl. by rewrite Hk.
  - run_M. unfold get. simpl. rewrite Hc.
    unfold spec_drop_table, spec_drop_sequence.
    destruct (has_auto_field (_meta m)); [|done].
    destruct (drop_sequence_sql _ _) as [ds|]; [|done]. simpl.
    by destruct (negb (String.eqb ds EmptyString)).
Qed.

(** X9. For a managed, non-proxy model that is a key of the references to
    delete, with entries that are foreign keys to its fields,
    [sql_destroy_model] returns the DROP TABLE statement, then one
    drop-constraint statement per entry, in order, then the backend's
    drop-sequence statement if the model has an auto field, and removes the
    key from the dictionary. *)
Theorem sql_destroy_model_statements
    rt self m style (references_to_delete : PendingReferences) k refs :
  managed (_meta m) = true → proxy (_meta m) = false →
  references_to_delete !! class_id (_meta m) = Some (k, refs) →
  forallb (is_foreign_key_to m) refs = true →
  sql_destroy_model rt self m style references_to_delete
  = (Ok (spec_drop_table self m style
         :: map (λ ref, spec_drop_constraint self style ref
                          (spec_constraint_name rt self m ref)) refs
         ++ spec_drop_sequence self m),
     delete (class_id (_meta m)) references_to_delete).
Proof.
  intros Hm Hp Hk Hall.
  unfold sql_destroy_model, sql_remove_table_constraints.
  rewrite managed_guard by done.
  assert (Hc : contains references_to_delete m = true)
    by (apply contains_true; eauto).
  run_M. unfold get, lift, put, getitem, delitem. simpl. rewrite Hc, Hk.
  rewrite remove_constraint_fold by done. simpl.
  unfold spec_drop_table, spec_drop_sequence.
  destruct (has_auto_field (_meta m)); [|by rewrite app_nil_r].
  destruct (drop_sequence_sql _ _) as [ds|]; [|by simpl; rewrite app_nil_r]. simpl.
  destruct (negb (String.eqb ds EmptyString)); [done|by rewrite app_nil_r].
Qed.

(** ** Indexes *)

Lemma sql_indexes_for_field_cases rt self m f style :
  vendor self ≠ MySQL →
  if db_index f && negb (unique f)
  then ∃ s, sql_indexes_for_field rt self m f style = Ok [s]
  else sql_indexes_for_field rt self m f style = Ok [].
Proof.
  intros Hv. unfold sql_indexes_for_field, qualified_index_name.
  destruct (db_index f && negb (unique f)); [|done].
  destruct (vendor self); try done; simpl; eauto.
Qed.

Lemma sql_indexes_fold rt self m style fs : ∀ out,
  vendor self ≠ MySQL →
  ∃ ix, foldM (λ output f, ix ← sql_indexes_for_field rt self m f style;
                           Ok (output ++ ix)) out fs = Ok (out ++ ix)
        ∧ Forall2 (λ f s, sql_indexes_for_field rt self m f style = Ok [s])
            (List.filter (λ f, db_index f && negb (unique f)) fs) ix.
Proof.
  induction fs as [|f fs IH]; intros out Hv.
  - exists []. by rewrite app_nil_r.
  - rewrite foldM_cons. simpl.
    pose proof (sql_indexes_for_field_cases rt self m f style Hv) as Hf.
    destruct (db_index f && negb (unique f)).
    + destruct Hf as [s Hs]. rewrite Hs. simpl.
      destruct (IH (out ++ [s]) Hv) as (ixs & -> & Hall).
      exists (s :: ixs). split; [by rewrite <- app_assoc|]. by constructor.
    + rewrite Hf. simpl. rewrite app_nil_r. by apply IH.
Qed.

(** X10. On a backend other than MySQL, the index statements of a managed,
    non-proxy model are exactly the statements of [sql_indexes_for_field]
    for its indexed, non-unique local fields, one each and in field order;
    unique or unindexed fields add nothing. *)
Theorem sql_indexes_for_model_one_per_indexed_field rt self m style :
  vendor self ≠ MySQL →
  managed (_meta m) = true → proxy (_meta m) = false →
  ∃ out, sql_indexes_for_model rt self m style = Ok out
         ∧ Forall2 (λ f s, sql_indexes_for_field rt self m f style = Ok [s])
             (indexed_fields m) out
         ∧ length out = length (indexed_fields m).
Proof.
  intros Hv Hm Hp. unfold sql_indexes_for_model.
  rewrite managed_guard by done.
  destruct (sql_indexes_fold rt self m style (local_fields m) [] Hv)
    as (ix & -> & Hall).
  exists ix. split; [done|]. split; [done|].
  symmetry. by eapply Forall2_length.
Qed.

(** ** Table creation *)

Lemma mysql_create_model_field self settings_dict m style known_models out p f :
  vendor self = MySQL →
  ∃ out',
    sql_create_model_field self settings_dict m style known_models (out, p) f
    = Ok (out', record_field self ∅ m p f).
Proof.
  intros Hv. unfold sql_create_model_field, record_field,
    sql_for_inline_foreign_key_references. rewrite Hv.
  destruct (db_type (connection self) f) as [ct|]; [|eauto].
  destruct (rel f) as [r|]; simpl; eauto.
Qed.

Lemma mysql_create_model_fold self settings_dict m style known_models fs : ∀ out p,
  vendor self = MySQL →
  ∃ out',
    foldM (sql_create_model_field self settings_dict m style known_models)
      (out, p) fs
    = Ok (out', foldl (record_field self ∅ m) p fs).
Proof.
  induction fs as [|f fs IH]; intros out p Hv; [simpl; eauto|].
  destruct (mysql_create_model_field self settings_dict m style known_models
              out p f Hv) as [out' Hstep].
  rewrite foldM_cons, Hstep. by apply IH.
Qed.

Lemma deferred_to_empty self key f :
  deferred_to self ∅ key f = references self key f.
Proof.
  unfold deferred_to, references, known.
  destruct (db_type (connection self) f); [|done].
  destruct (rel f); [|done].
  rewrite (bool_decide_eq_false_2 (_ ∈ ∅)) by apply not_elem_of_empty.
  apply andb_true_r.
Qed.

(** X11. On MySQL, creating a managed, non-proxy model (whose
    [unique_together] fields and auto field exist) records every
    column-backed foreign key as pending, whether or not its target is among
    [known_models]: the entry under each target class lists exactly the
    model's foreign keys to that class, in field order. *)
Theorem mysql_create_model_defers_every_foreign_key
    self settings_dict m style known_models key :
  vendor self = MySQL →
  managed (_meta m) = true → proxy (_meta m) = false →
  well_formed_model self ∅ m = true →
  ∃ out p,
    sql_create_model self settings_dict m style known_models = Ok (out, p)
    ∧ snd <$> (p !! key)
      = match List.filter (references self key) (local_fields m) with
        | [] => None
        | l => Some (map (pair m) l)
        end.
Proof.
  intros Hv Hm Hp Hwf. unfold well_formed_model in Hwf.
  apply andb_prop in Hwf as [[_ Hut]%andb_prop Hauto].
  assert (Hlk : snd <$> (foldl (record_field self ∅ m) ∅ (local_fields m) !! key)
                = match List.filter (references self key) (local_fields m) with
                  | [] => None
                  | l => Some (map (pair m) l)
                  end).
  { rewrite recorded_fields_lookup, lookup_empty.
    rewrite (filter_ext (deferred_to self ∅ key) (references self key))
      by (intros; apply deferred_to_empty).
    done. }
  unfold sql_create_model. rewrite managed_guard by done.
  destruct (mysql_create_model_fold self settings_dict m style known_models
              (local_fields m) [] ∅ Hv) as [table_output ->].
  simpl.
  destruct (unique_together_ok m
              (λ fld, SQL_FIELD style (quote_name (ops (connection self)) (column fld)))
              (λ cols, SQL_KEYWORD style "UNIQUE" +:+ " (" +:+
                       String.concat ", " cols +:+ ")")
              (unique_together (_meta m)) Hut) as [us ->].
  simpl.
  destruct (has_auto_field (_meta m)); [|simpl; eauto].
  apply bool_decide_eq_true in Hauto as [af ->].
  destruct (autoinc_sql _ _ _); simpl; eauto.
Qed.

(** ** The log of the statements sent by [_run_sql_as_user] *)

Lemma forM_execute_log db u sql : ∀ w r w',
  session w = Some u →
  forM_ (execute db) sql w = (r, w') →
  ∃ n, (n ≤ length sql)%nat
       ∧ executed w' = executed w ++ map (pair u) (take n sql)
       ∧ (r = Ok tt → n = length sql)
       ∧ (r ≠ Ok tt →
          ∃ q, r = Raise (DatabaseError q) ∧ last (take n sql) = Some q
               ∧ accepts db u q = false).
Proof.
  induction sql as [|q sql IH]; intros w r w' Hs.
  - intros [= <- <-]. exists 0%nat. simpl. rewrite app_nil_r. by repeat split.
  - change (forM_ (execute db) (q :: sql) w)
      with ((_ ← execute db q; forM_ (execute db) sql) w).
    unfold mbind, M_bind, execute at 1. rewrite Hs.
    destruct (accepts db u q) eqn:Hq.
    + intros Hrun. apply IH in Hrun as (n & Hn & Hlog & Hok & Hbad); [|done].
      exists (S n). cbn [dicts settings_ref session executed] in Hlog.
      split; [simpl; lia|]. split; [by rewrite Hlog, <- app_assoc|].
      split; [intros Hr; simpl; by rewrite Hok|].
      intros Hr. destruct (Hbad Hr) as (q' & -> & Hlast & Hq').
      exists q'. split; [done|]. split; [|done].
      simpl. by rewrite last_cons, Hlast.
    + intros [= <- <-]. exists 1%nat. simpl. split; [lia|].
      rewrite ?take_0. split; [done|]. split; [done|]. eauto.
Qed.

(** X12. The statements that a call of [_run_sql_as_user] adds to the
    server's log are a prefix of [sql], in order, all of them sent on a
    session of [user]. The prefix is the whole list when the call returns;
    it is empty when the login is refused; and when a statement is refused,
    the call raises the server's error for that statement, which is the
    last one of the prefix - nothing after it is sent. *)
Theorem run_sql_as_user_log_is_a_prefix db user sql w r w' :
  well_formed_world w →
  _run_sql_as_user db user sql w = (r, w') →
  ∃ n, (n ≤ length sql)%nat
       ∧ executed w' = executed w ++ map (pair user) (take n sql)
       ∧ (r = Ok tt → n = length sql)
       ∧ (sql ≠ [] → accepts_login db user = false →
          n = 0%nat ∧ r = Raise (DatabaseError "connect"))
       ∧ (accepts_login db user = true → r ≠ Ok tt →
          ∃ q, r = Raise (DatabaseError q) ∧ last (take n sql) = Some q
               ∧ accepts db user q = false).
Proof.
  intros Hwf. destruct sql as [|q sql].
  - intros [= <- <-]. exists 0%nat. simpl. rewrite app_nil_r. by repeat split.
  - unfold well_formed_world in Hwf.
    rewrite run_sql_as_user_cons. cbv zeta.
    set (w1 := mkWorld (dicts w ++ _) _ _ _).
    set (ds := <[settings_ref w := <["USER" := user]> (settings_of w1)]>
                 (dicts w ++ [settings_of w])).
    assert (Hbody :
      (_ ← set_setting "USER" user; _ ← cursor db; forM_ (execute db) (q :: sql)) w1
      = if accepts_login db user
        then forM_ (execute db) (q :: sql)
               (mkWorld ds (settings_ref w) (Some user) (executed w))
        else (Raise (DatabaseError "connect"),
              mkWorld ds (settings_ref w) None (executed w))).
    { unfold mbind at 1, M_bind at 1, set_setting, modify.
      unfold mbind at 1, M_bind at 1, cursor.
      cbn [dicts settings_ref session executed w1].
      rewrite settings_of_mkWorld.
      rewrite list_lookup_insert_eq by (rewrite length_app; lia).
      unfold setting. cbn [from_option id]. rewrite lookup_insert_eq.
      by destruct (accepts_login db user). }
    rewrite Hbody. clear Hbody.
    destruct (accepts_login db user) eqn:Hlogin.
    + set (w2 := mkWorld _ _ (Some user) _).
      destruct (forM_ (execute db) (q :: sql) w2) as [rb wb] eqn:Hrun.
      apply (forM_execute_log db user) in Hrun
        as (n & Hn & Hlog & Hok & Hbad); [|done].
      cbn [fst snd]. intros [= <- <-]. exists n. cbn [executed].
      split; [done|]. split; [done|]. split; [done|]. split; [done|].
      intros _. exact Hbad.
    + cbn [fst snd executed]. intros [= <- <-]. exists 0%nat.
      rewrite take_0. simpl. rewrite app_nil_r.
      split; [lia|]. split; [done|]. split; [done|]. split; [done|]. done.
Qed.

(** ** Dry runs: [as_sql=True] *)

Lemma bind_frame {S A B} (m : M S A) (k : A → M S B) :
  (∀ s, (m s).2 = s) → (∀ a s, (k a s).2 = s) → ∀ s, ((m ≫= k) s).2 = s.
Proof.
  intros Hm Hk s. unfold mbind, M_bind. specialize (Hm s).
  destruct (m s) as [[a|e] s1]; simpl in *; subst; [apply Hk | done].
Qed.

Lemma foldS_frame {S A B} (body : A → B → M S A) (l : list B) :
  (∀ a x s, (body a x s).2 = s) → ∀ a s, (foldS body a l s).2 = s.
Proof.
  intros Hb. induction l as [|x l IH]; intros a s; [done|].
  change (foldS body a (x :: l)) with (acc' ← body a x; foldS body acc' l).
  by apply bind_frame.
Qed.

Lemma forced_schema_frame self (opts : Options) {B} (k : string → M World B) :
  (∀ a s, (k a s).2 = s) →
  ∀ s, ((st ← current_settings; x ← lift (forced_schema self st opts); k x) s).2 = s.
Proof.
  intros Hk. apply bind_frame; [done|].
  intros st. apply bind_frame; [done|done].
Qed.

Lemma add_to_schema_frame self acc item w :
  (add_to_schema self acc item w).2 = w.
Proof.
  destruct item as [m refs]. unfold add_to_schema.
  by apply forced_schema_frame.
Qed.

Lemma add_from_schema_frame self acc item w :
  (add_from_schema self acc item w).2 = w.
Proof.
  destruct item as [m refs]. unfold add_from_schema.
  apply foldS_frame. intros rfs ref s. by apply forced_schema_frame.
Qed.

Lemma grant_pass_dry_frame db self sql item w :
  (grant_pass db self true sql item w).2 = w.
Proof.
  destruct item as [schema0 all_refs]. unfold grant_pass.
  apply bind_frame.
  - intros s. apply foldS_frame. intros g [m refs] s'.
    apply foldS_frame. intros g' ref s''.
    apply forced_schema_frame. intros to_user s3.
    by destruct (bool_decide (to_user ≠ schema0)).
  - intros g s. apply bind_frame; [|done]. intros s'.
    unfold _grant_references. by apply bind_frame.
Qed.

Lemma alter_pass_dry_frame rt db self sql item w :
  (alter_pass rt db self true sql item w).2 = w.
Proof.
  destruct item as [schema0 ref_dict]. unfold alter_pass.
  apply bind_frame; [done|]. intros st s.
  apply bind_frame; [done|]. intros per s'.
  by apply bind_frame.
Qed.

(** X13. With [as_sql=True] nothing is sent and the connection is not
    touched: for every backend, every dictionary of pending references and
    every state of the connection (the settings may even lack [USER], so
    that the call raises), [post_create_pending_references] leaves the
    connection's settings, session and log of executed statements exactly
    as they were; so does [_grant_references], which then returns the
    connect comment followed by one GRANT per grantee. *)
Theorem as_sql_leaves_the_connection_untouched rt db self pending_references w :
  (post_create_pending_references rt db self pending_references true w).2 = w
  ∧ ∀ schema0 grant_to,
      _grant_references db self schema0 grant_to true w
      = (Ok (connect_comment schema0
             :: map (λ x, spec_grant self x.1 x.2) grant_to), w).
Proof.
  split.
  - unfold post_create_pending_references.
    destruct (vendor self); try done.
    unfold oracle_post_create_pending_references.
    apply bind_frame.
    { intros s. apply foldS_frame. intros; apply add_to_schema_frame. }
    intros rts s. apply bind_frame.
    { intros s'. apply foldS_frame. intros; apply grant_pass_dry_frame. }
    intros sql s'. apply bind_frame.
    { intros s''. apply foldS_frame. intros; apply add_from_schema_frame. }
    intros rfs s''. apply foldS_frame. intros; apply alter_pass_dry_frame.
  - intros schema0 grant_to. unfold _grant_references. run_M. simpl.
    do 3 f_equal. apply map_ext. by intros [m user].
Qed.

(** ** The grants of the first pass *)





(** ** Names of the test database *)

Lemma length_append (s1 s2 : string) :
  String.length (s1 +:+ s2) = (String.length s1 + String.length s2)%nat.
Proof. induction s1 as [|c s1 IH]; simpl; [done|by rewrite IH]. Qed.

Lemma prefixed_name_differs (p n : string) : p ≠ EmptyString → p +:+ n ≠ n.
Proof.
  intros Hp Heq. apply (f_equal String.length) in Heq.
  rewrite length_append in Heq.
  destruct p; [done|]. simpl in Heq. lia.
Qed.

(** X15. With [NAME] and [TEST_NAME] in the settings, [_get_test_db_name]
    returns: on Oracle the production name [NAME] itself; on the other
    backends [TEST_NAME] if it is not empty, and otherwise [NAME] with the
    prefix [test_], which is never the production name. *)
Theorem test_db_name_differs_from_production self settings_dict n t :
  settings_dict !! "NAME" = Some n →
  settings_dict !! "TEST_NAME" = Some t →
  ∃ r, _get_test_db_name self settings_dict = Ok r
       ∧ (vendor self = Oracle → r = n)
       ∧ (vendor self ≠ Oracle → t ≠ EmptyString → r = t)
       ∧ (vendor self ≠ Oracle → t = EmptyString →
          r = TEST_DATABASE_PREFIX +:+ n ∧ r ≠ n).
Proof.
  intros Hn Ht.
  unfold _get_test_db_name, oracle_get_test_db_name, base_get_test_db_name, setting.
  rewrite Hn, Ht. simpl.
  destruct (vendor self) eqn:Hv; try (exists n; by repeat split);
    (destruct (String.eqb_spec t EmptyString) as [He|He];
     simpl; eexists; (split; [reflexivity|]);
     (split; [done|]); (split; [done|]); intros _ ?; try done;
     split; [done|by apply prefixed_name_differs]).
Qed.

(** X16. The Oracle DDL parameters need [NAME], [USER] and [TEST_NAME]:
    without [TEST_NAME] the call raises [KeyError] (the handler around that
    lookup is for [AttributeError]), while a missing [TEST_USER],
    [TEST_PASSWD], [TEST_TBLSPACE] or [TEST_TBLSPACE_TMP] is replaced by its
    default - the prefixed user, the fixed password, the prefixed name and
    the prefixed name with [_temp]. *)
Theorem oracle_ddl_parameters_defaults settings_dict n u :
  settings_dict !! "NAME" = Some n →
  settings_dict !! "USER" = Some u →
  (settings_dict !! "TEST_NAME" = None →
   _test_database_name settings_dict = Raise (KeyError "TEST_NAME")
   ∧ _get_ddl_parameters settings_dict = Raise (KeyError "TEST_NAME"))
  ∧ (∀ t, settings_dict !! "TEST_NAME" = Some t →
          settings_dict !! "TEST_USER" = None →
          settings_dict !! "TEST_PASSWD" = None →
          settings_dict !! "TEST_TBLSPACE" = None →
          settings_dict !! "TEST_TBLSPACE_TMP" = None →
          ∃ d, _get_ddl_parameters settings_dict = Ok d
               ∧ d !! "dbname"
                 = Some (if bool_decide (t = EmptyString)
                         then TEST_DATABASE_PREFIX +:+ n else t)
               ∧ d !! "user" = Some (TEST_DATABASE_PREFIX +:+ u)
               ∧ d !! "password" = Some PASSWORD
               ∧ d !! "tblspace" = Some (TEST_DATABASE_PREFIX +:+ n)
               ∧ d !! "tblspace_temp" = Some (TEST_DATABASE_PREFIX +:+ n +:+ "_temp")
               ∧ dom d = {["dbname"; "user"; "password"; "tblspace";
                           "tblspace_temp"]}).
Proof.
  intros Hn Hu. split.
  - intros Ht. unfold _get_ddl_parameters, _test_database_name, setting.
    by rewrite Hn, Ht.
  - intros t Ht H1 H2 H3 H4.
    unfold _get_ddl_parameters, _test_database_name, _test_database_user,
      _test_database_passwd, _test_database_tblspace, _test_database_tblspace_tmp,
      setting.
    rewrite Hn, Hu, Ht, H1, H2, H3, H4. simpl.
    destruct (String.eqb_spec t EmptyString) as [He|He];
      [rewrite (bool_decide_eq_true_2 _ He) | rewrite (bool_decide_eq_false_2 _ He)];
      simpl; eexists; (split; [reflexivity|]);
      rewrite !dom_insert_L, dom_empty_L;
      repeat split; try (by simplify_map_eq); set_solver.
Qed.

(** X17. On MySQL the suffix of CREATE DATABASE needs both [TEST_CHARSET]
    and [TEST_COLLATION] in the settings ([KeyError] otherwise, the charset
    being read first); it is the empty string exactly when both are
    empty. *)
Theorem table_creation_suffix_empty_iff settings_dict :
  (settings_dict !! "TEST_CHARSET" = None →
   mysql_sql_table_creation_suffix settings_dict = Raise (KeyError "TEST_CHARSET"))
  ∧ (is_Some (settings_dict !! "TEST_CHARSET") →
     settings_dict !! "TEST_COLLATION" = None →
     mysql_sql_table_creation_suffix settings_dict = Raise (KeyError "TEST_COLLATION"))
  ∧ (∀ cs co,
       settings_dict !! "TEST_CHARSET" = Some cs →
       settings_dict !! "TEST_COLLATION" = Some co →
       ∃ r, mysql_sql_table_creation_suffix settings_dict = Ok r
            ∧ (r = EmptyString ↔ cs = EmptyString ∧ co = EmptyString)).
Proof.
  unfold mysql_sql_table_creation_suffix, setting. split; [by intros ->|]. split.
  - by intros [cs ->] ->.
  - intros cs co -> ->. simpl.
    destruct (String.eqb_spec cs EmptyString) as [Hcs|Hcs],
             (String.eqb_spec co EmptyString) as [Hco|Hco];
      simpl; eexists; (split; [reflexivity|]); split; try done; intuition discriminate.
Qed.

(** ** The shape of the CREATE TABLE statement *)

Lemma string_append_assoc (a b c : string) : (a +:+ b) +:+ c = a +:+ b +:+ c.
Proof.
  induction a as [|ch a IH]; [done|].
  change (String ch ((a +:+ b) +:+ c) = String ch (a +:+ b +:+ c)).
  by rewrite IH.
Qed.

Lemma concat_cons_nonempty sep (x : string) (l : list string) :
  l ≠ [] → String.concat sep (x :: l) = x +:+ sep +:+ String.concat sep l.
Proof. by destruct l. Qed.

Lemma concat_snoc sep (l : list string) (x : string) :
  l ≠ [] → String.concat sep (l ++ [x]) = String.concat sep l +:+ sep +:+ x.
Proof.
  induction l as [|y l IH]; [done|]. intros _.
  destruct l as [|z l]; [done|].
  change ((y :: z :: l) ++ [x]) with (y :: ((z :: l) ++ [x])).
  rewrite concat_cons_nonempty by done. rewrite IH by done.
  rewrite (concat_cons_nonempty sep y (z :: l)) by done.
  by rewrite !string_append_assoc.
Qed.

Lemma statement_shape (h : string) (rest : list string) :
  rest ≠ [] →
  String.concat nl ((h :: rest) ++ [";"])
  = h +:+ nl +:+ String.concat nl rest +:+ nl +:+ ";".
Proof.
  intros Hne. change ((h :: rest) ++ [";"]) with (h :: (rest ++ [";"])).
  rewrite concat_cons_nonempty by (by intros [_ ?]%app_eq_nil).
  by rewrite concat_snoc.
Qed.

Lemma create_model_fold_ok self settings_dict m style known_models :
  vendor self ≠ Oracle →
  forallb (inline_target_exists self known_models) (local_fields m) = true →
  ∃ res, foldM (sql_create_model_field self settings_dict m style known_models)
           ([], ∅) (local_fields m) = Ok res.
Proof.
  intros Hv Hfs. destruct (vendor self) eqn:Ev; [| |done|].
  - destruct (sql_create_model_fold self settings_dict m style known_models
                (local_fields m) [] ∅) as [out ->]; eauto.
  - destruct (mysql_create_model_fold self settings_dict m style known_models
                (local_fields m) [] ∅) as [out ->]; eauto.
  - destruct (sql_create_model_fold self settings_dict m style known_models
                (local_fields m) [] ∅) as [out ->]; eauto.
Qed.

(** X18. Outside Oracle, [sql_create_model] on a managed, non-proxy model
    (whose inline targets, [unique_together] fields and auto field exist)
    returns exactly one CREATE TABLE statement, followed by the statements
    the backend gives for the auto-increment column when the model has an
    auto field. The statement opens with [CREATE TABLE <qualified name> (]
    on a line of its own and ends with a line holding [;]. *)
Theorem sql_create_model_is_one_statement
    self settings_dict m style known_models :
  vendor self ≠ Oracle →
  managed (_meta m) = true → proxy (_meta m) = false →
  well_formed_model self known_models m = true →
  ∃ body p,
    sql_create_model self settings_dict m style known_models
    = Ok (((SQL_KEYWORD style "CREATE TABLE" +:+ " " +:+
            SQL_TABLE style (compose_qualified_name (ops (connection self))
                               (qualified_name (connection self) (_meta m))) +:+ " (")
           +:+ nl +:+ body +:+ nl +:+ ";")
          :: match (if has_auto_field (_meta m) then auto_field m else None) with
             | Some af =>
                 default []
                   (autoinc_sql (ops (connection self))
                      (qualified_name (connection self) (_meta m))
                      (default EmptyString (py_or (db_column af) (Some (name af)))))
             | None => []
             end,
          p).
Proof.
  intros Hv Hm Hp Hwf. unfold well_formed_model in Hwf.
  apply andb_prop in Hwf as [[Hfs Hut]%andb_prop Hauto].
  unfold sql_create_model. rewrite managed_guard by done.
  destruct (create_model_fold_ok self settings_dict m style known_models Hv Hfs)
    as [[table_output p] ->].
  simpl.
  destruct (unique_together_ok m
              (λ fld, SQL_FIELD style (quote_name (ops (connection self)) (column fld)))
              (λ cols, SQL_KEYWORD style "UNIQUE" +:+ " (" +:+
                       String.concat ", " cols +:+ ")")
              (unique_together (_meta m)) Hut) as [us ->].
  simpl.
  assert (Hne : ∀ (x : string) (l : list string), l ++ [x] ≠ [])
    by (intros x l [_ ?]%app_eq_nil; done).
  destruct (has_auto_field (_meta m));
    [apply bool_decide_eq_true in Hauto as [af ->];
     destruct (autoinc_sql _ _ _)|];
    (destruct (truthy (db_tablespace (_meta m))); [destruct (negb _)|]);
    rewrite statement_shape by apply Hne; eexists _, p; reflexivity.
Qed.

(** ** Nothing pending *)

Lemma foldS_total {S A B} (body : A → B → M S A) (I : A → Prop)
    (l : list B) (s : S) :
  (∀ a x, I a → x ∈ l → ∃ a', body a x s = (Ok a', s) ∧ I a') →
  ∀ a, I a → ∃ a', foldS body a l s = (Ok a', s) ∧ I a'.
Proof.
  induction l as [|x l IH]; intros Hb a Ha; [by exists a|].
  change (foldS body a (x :: l)) with (acc' ← body a x; foldS body acc' l).
  unfold mbind, M_bind.
  destruct (Hb a x Ha (list_elem_of_here _ _)) as (a1 & -> & Ha1).
  apply IH; [|done].
  intros a0 y Ha0 Hy. apply Hb; [done|]. by apply list_elem_of_further.
Qed.

(** X19. On Oracle, when no model has a pending reference (the dictionary
    is empty or all its lists are), [post_create_pending_references] with
    [as_sql=False] returns no statement and does not touch the connection:
    it is not closed, no login is attempted, nothing is sent. *)
Theorem post_create_without_references rt db self pending_references w u :
  vendor self = Oracle →
  settings_of w !! "USER" = Some u →
  forallb (λ x : Model * list Ref, bool_decide (x.2 = [])) (items pending_references)
  = true →
  post_create_pending_references rt db self pending_references false w
  = (Ok [], w).
Proof.
  intros Hv Hu Hall.
  assert (Hempty : ∀ x, x ∈ items pending_references → x.2 = []).
  { intros x Hx. rewrite forallb_forall in Hall.
    eapply bool_decide_eq_true_1, Hall. by apply list_elem_of_In. }
  assert (Hforced : ∀ opts, ∃ s, forced_schema self (settings_of w) opts = Ok s).
  { intros opts. unfold forced_schema.
    destruct (oracle_forced_conversion self (settings_of w) u
                (qualified_name (connection self) opts) Hu)
      as (q' & -> & _ & [s Hs] & _).
    simpl. rewrite Hs. eauto. }
  unfold post_create_pending_references. rewrite Hv.
  unfold oracle_post_create_pending_references.
  destruct (foldS_total (add_to_schema self)
              (λ rts, ∀ k l, rts !! k = Some l → Forall (λ x, x.2 = []) l)
              (items pending_references) w) with (a := (∅ : gmap string (list (Model * list Ref))))
    as (rts & Hrts & Hinv).
  { intros rts [m refs] Hinv Hin. unfold add_to_schema. run_M.
    unfold current_settings, lift.
    destruct (Hforced (_meta m)) as [s ->].
    eexists. split; [reflexivity|].
    intros k l. destruct (decide (k = s)) as [->|Hk].
    - rewrite lookup_insert_eq. intros [= <-]. apply Forall_app. split.
      + destruct (rts !! s) as [l0|] eqn:Hl0; simpl; [by eapply Hinv|done].
      + constructor; [|done]. exact (Hempty (m, refs) Hin).
    - rewrite lookup_insert_ne by done. apply Hinv. }
  { intros k l. by rewrite lookup_empty. }
  unfold mbind at 1, M_bind at 1. rewrite Hrts.
  destruct (foldS_total (grant_pass db self false) (λ sql, sql = [])
              (map_to_list rts) w) with (a := ([] : list string))
    as (sql & Hsql & ->).
  { intros sql0 [schema0 all_refs] -> Hin.
    apply elem_of_map_to_list, Hinv in Hin. unfold grant_pass.
    match goal with
    | |- context [foldS ?b [] all_refs] =>
        destruct (foldS_total b (λ g, g = []) all_refs w) with (a := ([] : list (Model * string)))
          as (g & Hg & ->)
    end.
    - intros g [m refs] -> Hx.
      rewrite Forall_forall in Hin. specialize (Hin (m, refs) Hx).
      simpl in Hin. subst refs. by exists [].
    - done.
    - unfold mbind at 1, M_bind at 1. rewrite Hg.
      exists []. done. }
  { done. }
  unfold mbind at 1, M_bind at 1. rewrite Hsql.
  destruct (foldS_total (add_from_schema self) (λ rfs, rfs = ∅)
              (items pending_references) w) with (a := (∅ : gmap string PendingReferences))
    as (rfs & Hrfs & ->).
  { intros rfs [m refs] -> Hin. specialize (Hempty (m, refs) Hin).
    simpl in Hempty. subst refs. by exists ∅. }
  { done. }
  unfold mbind at 1, M_bind at 1. rewrite Hrfs.
  by rewrite map_to_list_empty.
Qed.

(** ** The size of a digest *)

Lemma string_of_uint_length d :
  String.length (NilZero.string_of_uint d) = Nat.max 1 (Hexadecimal.nb_digits d).
Proof.
  assert (H : ∀ d, String.length (NilEmpty.string_of_uint d)
                   = Hexadecimal.nb_digits d)
    by (intros d'; induction d'; simpl; congruence).
  destruct d; try done; unfold NilZero.string_of_uint; rewrite H; simpl; lia.
Qed.

Lemma of_hex_uint_acc_lower d : ∀ acc,
  (Npos acc * 16 ^ N.of_nat (Hexadecimal.nb_digits d)
   ≤ Npos (Pos.of_hex_uint_acc d acc))%N.
Proof.
  induction d; intros acc;
    try (simpl Pos.of_hex_uint_acc;
         change (Hexadecimal.nb_digits (_ d)) with (S (Hexadecimal.nb_digits d));
         rewrite Nat2N.inj_succ, N.pow_succ_r';
         etransitivity; [|apply IHd];
         rewrite N.mul_assoc; apply N.mul_le_mono_r; lia).
  simpl. lia.
Qed.

Lemma to_hex_uint_digits (p : positive) :
  (Npos p < 16 ^ 8)%N → (Hexadecimal.nb_digits (Pos.to_hex_uint p) ≤ 8)%nat.
Proof.
  intros Hp.
  pose proof (HexadecimalPos.Unsigned.of_to p) as Hof.
  pose proof (HexadecimalPos.Unsigned.to_of (Pos.to_hex_uint p)) as Hto.
  rewrite Hof in Hto. simpl in Hto.
  pose proof (HexadecimalPos.Unsigned.to_uint_nonzero p) as Hnz.
  pose proof (HexadecimalPos.Unsigned.to_uint_nonnil p) as Hnn.
  set (d := Pos.to_hex_uint p) in *.
  assert (Hlow : (16 ^ N.of_nat (Hexadecimal.nb_digits d - 1) ≤ Npos p)%N).
  { rewrite <- Hof.
    destruct d as [|l|l|l|l|l|l|l|l|l|l|l|l|l|l|l|l]; [done| |..];
      try (simpl Pos.of_hex_uint;
           change (Hexadecimal.nb_digits (_ l) - 1)%nat
             with (Hexadecimal.nb_digits l - 0)%nat;
           rewrite Nat.sub_0_r;
           etransitivity; [|apply of_hex_uint_acc_lower];
           rewrite <- (N.mul_1_l (16 ^ _)) at 1; apply N.mul_le_mono_r; lia).
    exfalso. rewrite HexadecimalFacts.unorm_D0 in Hto.
    destruct l as [|l|l|l|l|l|l|l|l|l|l|l|l|l|l|l|l]; [by apply Hnz|..];
      (assert (Hle : (Hexadecimal.nb_digits (Hexadecimal.unorm (Hexadecimal.D0 l))
                      ≤ Hexadecimal.nb_digits (Hexadecimal.D0 l))%nat)
         by (apply HexadecimalFacts.nb_digits_unorm; done) || idtac);
      match type of Hto with
      | ?a = Hexadecimal.unorm ?x =>
          pose proof (HexadecimalFacts.nb_digits_unorm x) as Hle';
          rewrite <- Hto in Hle'; simpl in Hle';
          assert (x ≠ Hexadecimal.Nil) as Hx by done;
          specialize (Hle' Hx); lia
      end. }
  destruct (le_lt_dec (Hexadecimal.nb_digits d) 8) as [?|Hgt]; [done|].
  exfalso.
  assert ((16 ^ 8 ≤ 16 ^ N.of_nat (Hexadecimal.nb_digits d - 1))%N)
    by (apply N.pow_le_mono_r; lia).
  lia.
Qed.

(** X20. A digest is short: [_digest] returns between one and eight
    characters, whatever the arguments and the interpreter's [hash], so the
    suffix it adds to an index or constraint name is of bounded length. *)
Theorem digest_has_at_most_eight_characters rt args :
  (1 ≤ String.length (_digest rt args) ≤ 8)%nat.
Proof.
  unfold _digest, hex. rewrite string_of_uint_length.
  split; [lia|].
  pose proof (Z.mod_pos_bound (Z.abs (hash rt args)) 4294967296 eq_refl) as [H0 H1].
  destruct (Z.to_N (Z.abs (hash rt args) `mod` 4294967296)) as [|p] eqn:Hn;
    [simpl; lia|].
  assert (Npos p < 16 ^ 8)%N by (rewrite <- Hn; change (16 ^ 8)%N with 4294967296%N; lia).
  pose proof (to_hex_uint_digits p H). simpl N.to_hex_uint. lia.
Qed.

(** ** Creating a table, then its deferred constraints *)

(** X21. Creation and resolution compose (base class and PostgreSQL): the
    references that [sql_create_model] defers for a model [m] to a target
    [t] outside [known_models] are exactly the ones for which a later
    [sql_for_pending_references] on [t], given the returned dictionary,
    emits an ALTER TABLE ... ADD CONSTRAINT statement - one per deferred
    foreign key, in field order - and that call removes [t] from the
    dictionary, leaving the entries of the other targets. *)
Theorem create_then_resolve_pending rt self settings_dict m t style known_models :
  vendor self = Base ∨ vendor self = PostgreSQL →
  managed (_meta m) = true → proxy (_meta m) = false →
  well_formed_model self known_models m = true →
  managed (_meta t) = true → proxy (_meta t) = false →
  forallb (is_foreign_key_to t)
    (deferred_refs self known_models m (class_id (_meta t))) = true →
  ∃ out p,
    sql_create_model self settings_dict m style known_models = Ok (out, p)
    ∧ sql_for_pending_references rt self settings_dict t style p
      = (Ok (map (λ ref, spec_add_constraint self settings_dict t style ref
                           (spec_constraint_name rt self t ref))
               (deferred_refs self known_models m (class_id (_meta t)))),
         delete (class_id (_meta t)) p).
Proof.
  intros Hv Hm Hp Hwf Htm Htp Hfk.
  destruct (sql_create_model_spec self settings_dict m style known_models
              Hv Hm Hp Hwf) as [out Hcreate].
  eexists out, _. split; [exact Hcreate|].
  set (p := foldl (record_field self known_models m) ∅ (local_fields m)).
  assert (sql_for_pending_references rt self settings_dict t style
          = base_sql_for_pending_references rt self settings_dict t style) as ->
    by (unfold sql_for_pending_references; by destruct Hv as [-> | ->]).
  pose proof (recorded_fields_lookup self known_models m (local_fields m)
                (class_id (_meta t)) ∅) as Hlk.
  fold p in Hlk. rewrite lookup_empty in Hlk. simpl in Hlk.
  unfold deferred_refs in *.
  destruct (List.filter _ (local_fields m)) as [|f l] eqn:Hl.
  - destruct (p !! class_id (_meta t)) as [[k refs]|] eqn:Hk; [done|].
    rewrite base_sql_for_pending_references_absent by done.
    by rewrite delete_id.
  - destruct (p !! class_id (_meta t)) as [[k refs]|] eqn:Hk; [|done].
    simpl in Hlk. injection Hlk as ->.
    apply base_sql_for_pending_references_spec with (k := k); try done.
    intros Hmy. destruct Hv; congruence.
Qed.

(** ** Instances of the further properties on the test schema *)

Lemma oracle_forced_conversion_has_schema_witness :
  test_settings !! "USER" = Some "django"
  ∧ (∃ q', oracle_qname_converter (connection oracle_creation) test_settings
             (qualified_name test_connection SameName2_meta) true = Ok q'
           ∧ db_format q' = true ∧ is_Some (schema q')
           ∧ table q' = table (qualified_name test_connection SameName2_meta))
  ∧ (∃ s, forced_schema oracle_creation test_settings SameName1_meta = Ok s).
Proof.
  split; [reflexivity|].
  apply (oracle_forced_conversion_has_schema oracle_creation test_settings
           "django" (qualified_name test_connection SameName2_meta) SameName1_meta).
  reflexivity.
Defined.

Lemma needs_separate_conn_iff_not_both_default_witness :
  test_settings !! "USER" = Some "django"
  ∧ ∃ d f t b,
      oracle_qname_converter (connection oracle_creation) test_settings
        default_qname true = Ok d
      ∧ oracle_qname_converter (connection oracle_creation) test_settings
          (qualified_name test_connection SameName2_meta) true = Ok f
      ∧ oracle_qname_converter (connection oracle_creation) test_settings
          (qualified_name test_connection SameName1_meta) true = Ok t
      ∧ needs_separate_conn oracle_creation test_settings
          (qualified_name test_connection SameName2_meta)
          (qualified_name test_connection SameName1_meta) = Ok b
      ∧ (b = false ↔ schema f = schema d ∧ schema t = schema d)
      ∧ (schema f ≠ schema d → b = true).
Proof.
  split; [reflexivity|].
  apply (needs_separate_conn_iff_not_both_default oracle_creation test_settings
           (qualified_name test_connection SameName2_meta)
           (qualified_name test_connection SameName1_meta) "django").
  reflexivity.
Defined.

Lemma oracle_inline_reference_needs_default_schema_witness :
  (vendor oracle_creation = Oracle
   ∧ test_settings !! "USER" = Some "django"
   ∧ rel SameName2_fk = Some (mkRel SameName1 "id")
   ∧ oracle_qname_converter (connection oracle_creation) test_settings
       default_qname true = Ok (mkQName (Some "django") None true None)
   ∧ oracle_qname_converter (connection oracle_creation) test_settings
       (qualified_name (connection oracle_creation) (model SameName2_fk)) true
     = Ok (mkQName (Some "schema1") (Some "sn") true (Some "dbschemas.SameName2"))
   ∧ oracle_qname_converter (connection oracle_creation) test_settings
       (qualified_name (connection oracle_creation) (_meta SameName1)) true
     = Ok (mkQName (Some "django") (Some "sn") true (Some "dbschemas.SameName1")))
  ∧ sql_for_inline_foreign_key_references oracle_creation test_settings
      SameName2_fk {["dbschemas.SameName1"]} no_style
    = Ok ([], true).
Proof.
  split; [repeat split|].
  rewrite (oracle_inline_reference_needs_default_schema oracle_creation
             test_settings SameName2_fk (mkRel SameName1 "id") "django"
             (mkQName (Some "django") None true None)
             (mkQName (Some "schema1") (Some "sn") true (Some "dbschemas.SameName2"))
             (mkQName (Some "django") (Some "sn") true (Some "dbschemas.SameName1"))
             {["dbschemas.SameName1"]} no_style);
    reflexivity.
Defined.

Lemma oracle_passes_without_entries_witness :
  default [] (snd <$> (<["dbschemas.SameName1" := (SameName1, [])]> ∅
                       : PendingReferences) !! class_id (_meta SameName1)) = []
  ∧ oracle_sql_for_pending_references (test_runtime 0) oracle_creation
      test_settings SameName1 no_style false
      (<["dbschemas.SameName1" := (SameName1, [])]> ∅)
    = (Ok [], <["dbschemas.SameName1" := (SameName1, [])]> ∅)
  ∧ oracle_sql_for_pending_references (test_runtime 0) oracle_creation
      test_settings SameName1 no_style true
      (<["dbschemas.SameName1" := (SameName1, [])]> ∅)
    = (Ok [], delete (class_id (_meta SameName1))
                (<["dbschemas.SameName1" := (SameName1, [])]> ∅)).
Proof.
  split; [reflexivity|].
  apply (oracle_passes_without_entries (test_runtime 0) oracle_creation
           test_settings SameName1 no_style
           (<["dbschemas.SameName1" := (SameName1, [])]> ∅)).
  reflexivity.
Defined.

Lemma mysql_reference_name_is_schema_qualified_witness :
  test_settings !! "NAME" = Some "xe"
  ∧ (∃ q, mysql_qualified_name_for_ref mysql_creation test_settings
            (qualified_name test_connection SameName2_meta)
            (qualified_name test_connection SameName1_meta)
          = Ok (compose_qualified_name (ops (connection mysql_creation)) q)
          ∧ is_Some (schema q) ∧ db_format q = true
          ∧ table q = table (qualified_name test_connection SameName1_meta)
          ∧ (schema q = Some "xe"
             ∨ schema q = schema (qualified_name test_connection SameName1_meta)
             ∨ schema q = convert_schema (connection mysql_creation)
                            (schema (qualified_name test_connection SameName1_meta))))
  ∧ mysql_qualified_name_for_ref mysql_creation test_settings
      (qualified_name test_connection SameName2_meta)
      (qualified_name test_connection SameName1_meta)
    = mysql_qualified_name_for_ref mysql_creation test_settings
        (qualified_name test_connection SameName1_meta)
        (qualified_name test_connection SameName1_meta).
Proof.
  split; [reflexivity|].
  apply (mysql_reference_name_is_schema_qualified mysql_creation test_settings
           (qualified_name test_connection SameName2_meta)
           (qualified_name test_connection SameName1_meta)
           (qualified_name test_connection SameName1_meta) "xe").
  reflexivity.
Defined.

Lemma remove_table_constraints_needs_entry_witness :
  (managed (_meta SameName1) = true ∧ proxy (_meta SameName1) = false
   ∧ (∅ : PendingReferences) !! class_id (_meta SameName1) = None)
  ∧ sql_remove_table_constraints (test_runtime 0) base_creation SameName1
      no_style ∅
    = (Raise (KeyError (class_id (_meta SameName1))), ∅)
  ∧ sql_destroy_model (test_runtime 0) base_creation SameName1 no_style ∅
    = (Ok (spec_drop_table base_creation SameName1 no_style
           :: spec_drop_sequence base_creation SameName1), ∅).
Proof.
  split; [repeat split|].
  apply (remove_table_constraints_needs_entry (test_runtime 0) base_creation
           SameName1 no_style ∅); reflexivity.
Defined.

Lemma sql_destroy_model_statements_witness :
  (managed (_meta SameName1) = true ∧ proxy (_meta SameName1) = false
   ∧ test_pending !! class_id (_meta SameName1)
     = Some (SameName1, [(SameName2, SameName2_fk)])
   ∧ forallb (is_foreign_key_to SameName1) [(SameName2, SameName2_fk)] = true)
  ∧ sql_destroy_model (test_runtime 0) base_creation SameName1 no_style
      test_pending
    = (Ok (spec_drop_table base_creation SameName1 no_style
           :: map (λ ref, spec_drop_constraint base_creation no_style ref
                            (spec_constraint_name (test_runtime 0) base_creation
                               SameName1 ref))
                [(SameName2, SameName2_fk)]
           ++ spec_drop_sequence base_creation SameName1),
       delete (class_id (_meta SameName1)) test_pending).
Proof.
  split; [repeat split|].
  apply (sql_destroy_model_statements (test_runtime 0) base_creation SameName1
           no_style test_pending SameName1 [(SameName2, SameName2_fk)]);
    reflexivity.
Defined.

Lemma sql_indexes_for_model_one_per_indexed_field_witness :
  (vendor base_creation ≠ MySQL
   ∧ managed (_meta SameName2) = true ∧ proxy (_meta SameName2) = false)
  ∧ ∃ out, sql_indexes_for_model (test_runtime 0) base_creation SameName2 no_style
           = Ok out
           ∧ Forall2 (λ f s, sql_indexes_for_field (test_runtime 0) base_creation
                               SameName2 f no_style = Ok [s])
               (indexed_fields SameName2) out
           ∧ length out = length (indexed_fields SameName2).
Proof.
  split; [repeat split; discriminate|].
  apply (sql_indexes_for_model_one_per_indexed_field (test_runtime 0)
           base_creation SameName2 no_style); [discriminate|reflexivity..].
Defined.

Lemma mysql_create_model_defers_every_foreign_key_witness :
  (vendor mysql_creation = MySQL
   ∧ managed (_meta SameName2) = true ∧ proxy (_meta SameName2) = false
   ∧ well_formed_model mysql_creation ∅ SameName2 = true)
  ∧ ∃ out p,
      sql_create_model mysql_creation test_settings SameName2 no_style
        {["dbschemas.SameName1"]} = Ok (out, p)
      ∧ snd <$> (p !! "dbschemas.SameName1")
        = match List.filter (references mysql_creation "dbschemas.SameName1")
                  (local_fields SameName2) with
          | [] => None
          | l => Some (map (pair SameName2) l)
          end.
Proof.
  split; [repeat split|].
  apply (mysql_create_model_defers_every_foreign_key mysql_creation test_settings
           SameName2 no_style {["dbschemas.SameName1"]} "dbschemas.SameName1");
    reflexivity.
Defined.

Lemma run_sql_as_user_log_is_a_prefix_witness :
  well_formed_world test_world
  ∧ _run_sql_as_user rejecting "schema1"
      ["SELECT 1 FROM DUAL"; "SELECT 2 FROM DUAL"] test_world
    = (Raise (DatabaseError "SELECT 1 FROM DUAL"),
       mkWorld [<["USER" := "schema1"]> test_settings; test_settings] 1 None
         [("schema1", "SELECT 1 FROM DUAL")])
  ∧ ∃ n, (n ≤ 2)%nat
         ∧ [("schema1", "SELECT 1 FROM DUAL")]
           = [] ++ map (pair "schema1")
                     (take n ["SELECT 1 FROM DUAL"; "SELECT 2 FROM DUAL"]).
Proof.
  split; [unfold well_formed_world; simpl; lia|].
  split; [reflexivity|].
  destruct (run_sql_as_user_log_is_a_prefix rejecting "schema1"
              ["SELECT 1 FROM DUAL"; "SELECT 2 FROM DUAL"] test_world
              (Raise (DatabaseError "SELECT 1 FROM DUAL"))
              (mkWorld [<["USER" := "schema1"]> test_settings; test_settings] 1 None
                 [("schema1", "SELECT 1 FROM DUAL")]))
    as (n & Hn & Hlog & _).
  - unfold well_formed_world. simpl. lia.
  - reflexivity.
  - exists n. split; [exact Hn | exact Hlog].
Defined.


Lemma test_db_name_differs_from_production_witness :
  (<["TEST_NAME" := EmptyString]> test_settings !! "NAME" = Some "xe"
   ∧ <["TEST_NAME" := EmptyString]> test_settings !! "TEST_NAME" = Some EmptyString)
  ∧ ∃ r, _get_test_db_name base_creation
           (<["TEST_NAME" := EmptyString]> test_settings) = Ok r
         ∧ r = TEST_DATABASE_PREFIX +:+ "xe" ∧ r ≠ "xe".
Proof.
  split; [split; reflexivity|].
  destruct (test_db_name_differs_from_production base_creation
              (<["TEST_NAME" := EmptyString]> test_settings) "xe" EmptyString)
    as (r & Hr & _ & _ & He); [reflexivity | reflexivity |].
  exists r. split; [exact Hr|]. apply He; [discriminate|reflexivity].
Defined.

Lemma oracle_ddl_parameters_defaults_witness :
  (test_settings !! "NAME" = Some "xe" ∧ test_settings !! "USER" = Some "django")
  ∧ _get_ddl_parameters test_settings = Raise (KeyError "TEST_NAME")
  ∧ ∃ d, _get_ddl_parameters (<["TEST_NAME" := "t"]> test_settings) = Ok d
         ∧ d !! "user" = Some "test_django"
         ∧ d !! "password" = Some PASSWORD.
Proof.
  split; [split; reflexivity|]. split.
  - apply (oracle_ddl_parameters_defaults test_settings "xe" "django");
      reflexivity.
  - destruct (oracle_ddl_parameters_defaults (<["TEST_NAME" := "t"]> test_settings)
                "xe" "django") as [_ H]; [reflexivity | reflexivity |].
    destruct (H "t") as (d & Hd & _ & Hu & Hp & _); try reflexivity.
    exists d. split; [exact Hd|]. split; [exact Hu | exact Hp].
Defined.

Lemma sql_create_model_is_one_statement_witness :
  (vendor base_creation ≠ Oracle
   ∧ managed (_meta SameName2) = true ∧ proxy (_meta SameName2) = false
   ∧ well_formed_model base_creation ∅ SameName2 = true)
  ∧ ∃ body p,
      sql_create_model base_creation test_settings SameName2 no_style ∅
      = Ok ([("CREATE TABLE" +:+ " " +:+
              test_compose_qualified_name
                (qualified_name test_connection SameName2_meta)
              +:+ " (") +:+ nl +:+ body +:+ nl +:+ ";"], p).
Proof.
  split; [repeat split; discriminate|].
  destruct (sql_create_model_is_one_statement base_creation test_settings
              SameName2 no_style ∅) as (body & p & H);
    [discriminate | reflexivity | reflexivity | reflexivity |].
  exists body, p. exact H.
Defined.

Lemma post_create_without_references_witness :
  (vendor oracle_creation = Oracle
   ∧ settings_of test_world !! "USER" = Some "django"
   ∧ forallb (λ x : Model * list Ref, bool_decide (x.2 = []))
       (items (<["dbschemas.SameName1" := (SameName1, [])]> ∅)) = true)
  ∧ post_create_pending_references (test_runtime 0) rejecting oracle_creation
      (<["dbschemas.SameName1" := (SameName1, [])]> ∅) false test_world
    = (Ok [], test_world).
Proof.
  split; [repeat split|].
  apply (post_create_without_references (test_runtime 0) rejecting oracle_creation
           (<["dbschemas.SameName1" := (SameName1, [])]> ∅) test_world "django");
    reflexivity.
Defined.

Lemma create_then_resolve_pending_witness :
  ((vendor base_creation = Base ∨ vendor base_creation = PostgreSQL)
   ∧ managed (_meta SameName2) = true ∧ proxy (_meta SameName2) = false
   ∧ well_formed_model base_creation ∅ SameName2 = true
   ∧ managed (_meta SameName1) = true ∧ proxy (_meta SameName1) = false
   ∧ forallb (is_foreign_key_to SameName1)
       (deferred_refs base_creation ∅ SameName2 (class_id (_meta SameName1)))
     = true)
  ∧ ∃ out p,
      sql_create_model base_creation test_settings SameName2 no_style ∅
      = Ok (out, p)
      ∧ sql_for_pending_references (test_runtime 0) base_creation test_settings
          SameName1 no_style p
        = (Ok (map (λ ref, spec_add_constraint base_creation test_settings
                             SameName1 no_style ref
                             (spec_constraint_name (test_runtime 0) base_creation
                                SameName1 ref))
                 (deferred_refs base_creation ∅ SameName2
                    (class_id (_meta SameName1)))),
           delete (class_id (_meta SameName1)) p).
Proof.
  split; [split; [left; reflexivity | repeat split]|].
  apply (create_then_resolve_pending (test_runtime 0) base_creation test_settings
           SameName2 SameName1 no_style ∅);
    [left; reflexivity | reflexivity..].
Defined.

Lemma table_creation_suffix_empty_iff_witness :
  ∃ r, mysql_sql_table_creation_suffix
         (<["TEST_CHARSET" := "utf8"]> (<["TEST_COLLATION" := EmptyString]> ∅))
       = Ok r
       ∧ (r = EmptyString ↔ "utf8" = EmptyString ∧ EmptyString = EmptyString).
Proof.
  destruct (table_creation_suffix_empty_iff
              (<["TEST_CHARSET" := "utf8"]> (<["TEST_COLLATION" := EmptyString]> ∅)))
    as (_ & _ & H).
  apply (H "utf8" EmptyString); reflexivity.
Defined.

(** ** Index names and the backend's limit *)




